(** * Cross-stack references: the four stacks and the entry point

    A shallow embedding of [lib/producer.ts], [lib/producer-config-based.ts],
    [lib/consumer-with-csr.ts], [lib/consumer-config-based.ts] and
    [bin/problemStack.ts], together with the part of the infrastructure
    framework these files call and the deployment rule that the repository's
    narrative ([cross-stack-references-obsidian.md]) describes.

    Conventions. The scope every stack is constructed in is the app, so the
    app is the state of the construction monad and the [scope] argument of
    the constructors is left implicit. A stack or a function is referred to
    by its path in the construct tree, which is how the mutation of an object
    shared between the app and its holder is modelled. The optional
    [cdk.StackProps] fields, which no source sets, are left out. The
    framework itself is not part of the repository: its operations are
    modelled by what the sources pass to them and by what the narrative shows
    them to generate. *)

From Stdlib Require Import Ascii.
From stdpp Require Import base strings list gmap.

(** ** Values, references and table handles *)

(** A reference to a resource of a stack: the pair of the owning stack's id
    and the construct id of the resource inside it (the narrative's
    [{ "Ref": "UsersTable..." }] under [UserService]). *)
Record Reference := mkReference { refStack : string; refLogicalId : string }.

Global Instance Reference_eq_dec : EqDecision Reference.
Proof. solve_decision. Defined.

(** What a string-typed attribute holds when a definition is built: either a
    plain string, or a token standing for a resource attribute that only the
    platform resolves (narrative, "Behind the scenes": the environment entry
    of the consuming stack is rendered as [Fn::ImportValue]). *)
Inductive Value :=
| Literal (s : string)
| Token (r : Reference).

Global Instance Value_eq_dec : EqDecision Value.
Proof. solve_decision. Defined.

Inductive AttributeType := BINARY | NUMBER | STRING.

Module Attribute.
Record t := mk { name : string; type : AttributeType }.
End Attribute.

(** Props of [new TableV2(scope, id, props)], the fields the sources set. *)
Module TablePropsV2.
Record t := mk { tableName : string; partitionKey : Attribute.t }.
End TablePropsV2.

(** Attributes of [TableV2.fromTableAttributes(scope, id, attrs)]. *)
Module TableAttributesV2.
Record t := mk { tableName : string; globalIndexes : list string }.
End TableAttributesV2.

(** [ITableV2]: the two implementations the sources obtain, a table defined
    by [new TableV2] and a handle re-resolved by [fromTableAttributes]. Both
    are identified by their place in the construct tree. *)
Module ITableV2.
Inductive t :=
| Created (stack id : string)
| Imported (stack id : string) (attrs : TableAttributesV2.t).

(** [table.tableName]: a token for a table defined in the tree, the given
    string for a re-resolved one. *)
Definition tableName (h : t) : Value :=
  match h with
  | Created stack id => Token (mkReference stack id)
  | Imported _ _ attrs => Literal (TableAttributesV2.tableName attrs)
  end.

(** Secondary-index metadata the handle carries. The sources define no
    index on the tables they create. *)
Definition globalIndexes (h : t) : list string :=
  match h with
  | Created _ _ => []
  | Imported _ _ attrs => TableAttributesV2.globalIndexes attrs
  end.

(** The references to other resources that using the handle entails. The
    name and the ARN of a table defined in the tree are attributes of one
    resource; the model keeps one reference per resource. A re-resolved
    handle is built from the name string and refers to nothing. *)
Definition references (h : t) : list Reference :=
  match h with
  | Created stack id => [mkReference stack id]
  | Imported _ _ _ => []
  end.
End ITableV2.

Module NodejsFunctionProps.
Record t := mk { entry : string; environment : gmap string Value }.
End NodejsFunctionProps.

(** A function handle: the path of the function in the construct tree. *)
Record FunctionRef := mkFunctionRef { fnStack : string; fnId : string }.

(** ** The construct tree *)

Inductive Access := ReadData | WriteData.

(** One permission grant, as attached to the grantee function's policy. *)
Record Statement := mkStatement { access : Access; resource : ITableV2.t }.

Inductive Construct :=
| CTableV2 (props : TablePropsV2.t)
| CImportedTable (attrs : TableAttributesV2.t)
| CNodejsFunction (props : NodejsFunctionProps.t) (policy : list Statement).

(** A stack: its children in construction order, and the values it was told
    to export explicitly ([this.exportValue]). *)
Record Stack := mkStack {
  children : list (string * Construct);
  exportValues : list Reference
}.

(** The app: its stacks in construction order. *)
Definition App := list (string * Stack).

Inductive Error :=
| DuplicateConstruct (scope id : string)
| NoSuchConstruct (scope id : string)
| ExportValueNotAnAttribute (scope : string).

Inductive Result (A : Type) :=
| Ok (a : A)
| Throw (e : Error).
Arguments Ok {A} a.
Arguments Throw {A} e.

(** Lookup and in-place update in a list of named children. *)
Fixpoint child {A} (id : string) (l : list (string * A)) : option A :=
  match l with
  | [] => None
  | (k, a) :: l' => if decide (k = id) then Some a else child id l'
  end.

Fixpoint alterChild {A} (f : A → A) (id : string) (l : list (string * A))
  : list (string * A) :=
  match l with
  | [] => []
  | (k, a) :: l' =>
      if decide (k = id) then (k, f a) :: l' else (k, a) :: alterChild f id l'
  end.

(** ** Construction as a state-and-error computation over the app *)

Definition M (A : Type) : Type := App → Result (A * App).

Global Instance M_ret : MRet M := λ A a app, Ok (a, app).
Global Instance M_bind : MBind M := λ A B f m app,
  match m app with
  | Ok (a, app') => f a app'
  | Throw e => Throw e
  end.

Definition throw {A} (e : Error) : M A := λ _, Throw e.
Definition getApp : M App := λ app, Ok (app, app).
Definition putApp (app : App) : M unit := λ _, Ok ((), app).

(** The ids the framework accepts for a stack placed in the app, whose name
    is then the id itself: a letter followed by letters, digits and hyphens,
    at most 128 characters. On other ids the constructor of [cdk.Stack]
    fails its own validation, which the model below leaves out: the model
    stands for the code on the ids of this set. *)
Definition isLetter (c : ascii) : bool :=
  let n := Ascii.nat_of_ascii c in
  ((65 <=? n) && (n <=? 90)) || ((97 <=? n) && (n <=? 122)).

Definition isDigit (c : ascii) : bool :=
  let n := Ascii.nat_of_ascii c in
  (48 <=? n) && (n <=? 57).

Fixpoint allNameChars (s : string) : bool :=
  match s with
  | EmptyString => true
  | String c s' =>
      (isLetter c || isDigit c || bool_decide (c = "-"%char)) && allNameChars s'
  end.

Definition validStackId (id : string) : bool :=
  match id with
  | EmptyString => false
  | String c rest =>
      isLetter c && allNameChars rest && (String.length id <=? 128)
  end.

(** [new cdk.App()]. *)
Definition App_new : App := [].

(** [super(scope, id, props)] of a class extending [cdk.Stack], with the app
    as scope: registers an empty stack under [id]; an id already taken in the
    scope is an error. The result is [this]. The framework's validation of
    the id itself is not modelled, see [validStackId]. *)
Definition Stack_new (id : string) : M string :=
  app ← getApp;
  match child id app with
  | Some _ => throw (DuplicateConstruct "App" id)
  | None => _ ← putApp (app ++ [(id, mkStack [] [])]); mret id
  end.

(** Registers [c] under [id] among the children of the stack [this]. *)
Definition addChild (this id : string) (c : Construct) : M unit :=
  app ← getApp;
  match child this app with
  | None => throw (NoSuchConstruct "App" this)
  | Some s =>
      match child id (children s) with
      | Some _ => throw (DuplicateConstruct this id)
      | None =>
          putApp (alterChild
                    (λ s, mkStack (children s ++ [(id, c)]) (exportValues s))
                    this app)
      end
  end.

(** [new TableV2(this, id, props)]. *)
Definition TableV2_new (this id : string) (props : TablePropsV2.t)
  : M ITableV2.t :=
  _ ← addChild this id (CTableV2 props);
  mret (ITableV2.Created this id).

(** [TableV2.fromTableAttributes(this, id, attrs)]. The framework refuses an
    empty [tableName] (neither a name nor an ARN is then given); the model
    stands for the call on non-empty names. *)
Definition TableV2_fromTableAttributes (this id : string)
    (attrs : TableAttributesV2.t) : M ITableV2.t :=
  _ ← addChild this id (CImportedTable attrs);
  mret (ITableV2.Imported this id attrs).

(** [new NodejsFunction(this, id, props)]. *)
Definition NodejsFunction_new (this id : string)
    (props : NodejsFunctionProps.t) : M FunctionRef :=
  _ ← addChild this id (CNodejsFunction props []);
  mret (mkFunctionRef this id).

Definition addToPolicy (st : Statement) (c : Construct) : Construct :=
  match c with
  | CNodejsFunction props policy => CNodejsFunction props (policy ++ [st])
  | _ => c
  end.

(** [table.grantReadData(grantee)]: adds a read statement on the table to the
    policy of the grantee function, in the grantee's stack. *)
Definition grantReadData (table : ITableV2.t) (grantee : FunctionRef)
  : M unit :=
  app ← getApp;
  match child (fnStack grantee) app with
  | None => throw (NoSuchConstruct "App" (fnStack grantee))
  | Some s =>
      match child (fnId grantee) (children s) with
      | Some (CNodejsFunction _ _) =>
          putApp (alterChild
                    (λ s, mkStack
                            (alterChild (addToPolicy (mkStatement ReadData table))
                                        (fnId grantee) (children s))
                            (exportValues s))
                    (fnStack grantee) app)
      | _ => throw (NoSuchConstruct (fnStack grantee) (fnId grantee))
      end
  end.



(** ** The stacks of the repository *)

(** The public attributes of a stack instance through which a caller holding
    the instance obtains a table handle. *)
Class PublicInterface (T : Type) := publicTables : T → list (string * ITableV2.t).

(** [lib/producer.ts] *)
Module UserServiceStack.
Record t := mk { node : string; usersTable : ITableV2.t }.

Definition new (id : string) : M t :=
  this ← Stack_new id;
  usersTable ← TableV2_new this "UsersTable"
    (TablePropsV2.mk "Users" (Attribute.mk "PK" STRING));
  mret (mk this usersTable).

Global Instance public : PublicInterface t :=
  λ inst, [("usersTable", usersTable inst)].
End UserServiceStack.

(** [lib/producer-config-based.ts] *)
Module ConfigBasedUserServiceStack.
Module Props.
Record t := mk { usersTableName : string }.
End Props.

Record t := mk { node : string; usersTable : ITableV2.t }.

Definition new (id : string) (props : Props.t) : M t :=
  this ← Stack_new id;
  usersTable ← TableV2_new this "UsersTable"
    (TablePropsV2.mk (Props.usersTableName props) (Attribute.mk "PK" STRING));
  mret (mk this usersTable).

Global Instance public : PublicInterface t :=
  λ inst, [("usersTable", usersTable inst)].
End ConfigBasedUserServiceStack.

(** [lib/consumer-with-csr.ts] *)
Module OrderServiceStack.
Module Props.
Record t := mk { usersTable : ITableV2.t }.
End Props.

Record t := mk { node : string }.

(** The constructor after [super(scope, id, props)]. *)
Definition body (this : string) (props : Props.t) : M unit :=
  readUser ← NodejsFunction_new this "OrderFunction"
    (NodejsFunctionProps.mk "./lib/lambdas/handler.ts"
       {[ "USER_TABLE" := ITableV2.tableName (Props.usersTable props) ]});
  grantReadData (Props.usersTable props) readUser.

Definition new (id : string) (props : Props.t) : M t :=
  this ← Stack_new id;
  _ ← body this props;
  mret (mk this).

Global Instance public : PublicInterface t := λ _, [].
End OrderServiceStack.

(** [lib/consumer-config-based.ts] *)
Module ConfigBasedOrderServiceStack.
Module Props.
Record t := mk { usersTableName : string }.
End Props.

Record t := mk { node : string }.

Definition new (id : string) (props : Props.t) : M t :=
  this ← Stack_new id;
  usersTable ← TableV2_fromTableAttributes this "ImportedUsersTable"
    (TableAttributesV2.mk (Props.usersTableName props) []);
  readUser ← NodejsFunction_new this "OrderFunction"
    (NodejsFunctionProps.mk "./lib/lambdas/handler.ts"
       {[ "USER_TABLE_NAME" := Literal (Props.usersTableName props) ]});
  _ ← grantReadData usersTable readUser;
  mret (mk this).

Global Instance public : PublicInterface t := λ _, [].
End ConfigBasedOrderServiceStack.

(** [bin/problemStack.ts] *)
Module problemStack.
Definition tableName : string := "Users".

Definition main : M unit :=
  userServiceStack ← UserServiceStack.new "UserService";
  _ ← OrderServiceStack.new "OrderService"
        (OrderServiceStack.Props.mk
           (UserServiceStack.usersTable userServiceStack));
  _ ← ConfigBasedUserServiceStack.new "ConfigBasedUserService"
        (ConfigBasedUserServiceStack.Props.mk tableName);
  _ ← ConfigBasedOrderServiceStack.new "ConfigBasedOrderService"
        (ConfigBasedOrderServiceStack.Props.mk tableName);
  mret ().

Definition app : Result (unit * App) := main App_new.
End problemStack.

(** ** The generated artifacts *)

(** The narrative's rule ("Problem Statement"): a resource passed from one
    stack to another makes the framework emit an export in the stack that
    owns it and an import in the stack that uses it. The references a stack
    uses are the tokens in its functions' environments and the tables its
    functions' policies name. *)
Definition valueReferences (v : Value) : list Reference :=
  match v with
  | Literal _ => []
  | Token r => [r]
  end.

Definition constructReferences (c : Construct) : list Reference :=
  match c with
  | CNodejsFunction props policy =>
      ((map_to_list (NodejsFunctionProps.environment props)).*2
         ≫= valueReferences)
      ++ (policy ≫= (λ st, ITableV2.references (resource st)))
  | _ => []
  end.

Definition stackReferences (s : Stack) : list Reference :=
  children s ≫= (λ kc, constructReferences kc.2).

(** The imports of the stack [sid]: the references it uses that point into
    another stack, each once. *)
Definition stackImports (sid : string) (s : Stack) : list Reference :=
  remove_dups (filter (λ r, refStack r ≠ sid) (stackReferences s)).

(** The exports of the stack [sid]: what the other stacks of the app import
    from it, and what it exports explicitly. An explicit export of a value
    carries the name of the automatic one ("Add the dummy export with
    matching names"), so each reference is exported once. *)
Definition stackExports (app : App) (sid : string) (s : Stack)
  : list Reference :=
  remove_dups
    (filter (λ r, refStack r = sid)
            (app ≫= (λ ks, stackImports ks.1 ks.2))
     ++ exportValues s).

Record Template := mkTemplate {
  imports : list Reference;
  exports : list Reference
}.

Definition synthStack (app : App) (sid : string) (s : Stack) : Template :=
  mkTemplate (stackImports sid s) (stackExports app sid s).

Definition synth (app : App) : list (string * Template) :=
  (λ ks, (ks.1, synthStack app ks.1 ks.2)) <$> app.

(** The table-creating definitions of an app, each with its place in the
    tree and its props. *)
Definition tableDefinitions (app : App) : list (Reference * TablePropsV2.t) :=
  app ≫= (λ ks, children ks.2 ≫= (λ kc,
    match kc.2 with
    | CTableV2 props => [(mkReference ks.1 kc.1, props)]
    | _ => []
    end)).

(** Those that carry a given table name. *)
Definition tableDefinitionsNamed (app : App) (name : string)
  : list Reference :=
  (filter (λ d, TablePropsV2.tableName d.2 = name) (tableDefinitions app)).*1.

(** What a value is once the platform has deployed the app: a token for a
    table resolves to the name the table was defined with. *)
Definition physicalName (app : App) (r : Reference) : option string :=
  s ← child (refStack r) app;
  c ← child (refLogicalId r) (children s);
  match c with
  | CTableV2 props => Some (TablePropsV2.tableName props)
  | _ => None
  end.

Definition resolve (app : App) (v : Value) : option string :=
  match v with
  | Literal s => Some s
  | Token r => physicalName app r
  end.

(** The function [fid] of the stack [sid]: its props and its policy. *)
Definition functionOf (app : App) (sid fid : string)
  : option (NodejsFunctionProps.t * list Statement) :=
  s ← child sid app;
  c ← child fid (children s);
  match c with
  | CNodejsFunction props policy => Some (props, policy)
  | _ => None
  end.

(** ** Deployment on the platform *)

(** What is live on the platform: the last template deployed for each
    stack. *)
Definition Deployed := list (string * Template).

(** "Export ... cannot be deleted as it is in use by OrderService". *)
Inductive DeployError :=
| ExportInUse (export : Reference) (importer : string).

(** The deployed stacks other than [sid] whose template imports [r]. *)
Definition importers (d : Deployed) (sid : string) (r : Reference)
  : list string :=
  (filter (λ kt, kt.1 ≠ sid ∧ r ∈ imports kt.2) d).*1.

(** The exports of the live template of [sid] that [t] no longer has. *)
Definition removedExports (sid : string) (t : Template) (d : Deployed)
  : list Reference :=
  filter (λ r, r ∉ exports t) (default [] (exports <$> child sid d)).

(** The removed exports that are still imported, each with an importer. *)
Definition blocked (sid : string) (t : Template) (d : Deployed)
  : list (Reference * string) :=
  removedExports sid t d ≫= (λ r, (λ c, (r, c)) <$> importers d sid r).

Definition upsert {A} (id : string) (a : A) (l : list (string * A))
  : list (string * A) :=
  match child id l with
  | Some _ => alterChild (λ _, a) id l
  | None => l ++ [(id, a)]
  end.

(** The narrative's rule for removal: the platform refuses to deploy a
    template that drops an export some other deployed stack still imports,
    naming the importer; otherwise the template replaces the live one. The
    narrative has the platform also refuse a changed value of an imported
    export; templates carry no values here, so what this rule refuses the
    platform refuses, and not conversely. *)
Definition deployStack (sid : string) (t : Template) (d : Deployed)
  : DeployError + Deployed :=
  match blocked sid t d with
  | (r, c) :: _ => inl (ExportInUse r c)
  | [] => inr (upsert sid t d)
  end.

(** Deploying several stacks one after the other ([cdk deploy --all]). *)
Fixpoint deployInOrder (plan : list (string * Template)) (d : Deployed)
  : DeployError + Deployed :=
  match plan with
  | [] => inr d
  | (sid, t) :: rest =>
      match deployStack sid t d with
      | inl e => inl e
      | inr d' => deployInOrder rest d'
      end
  end.

(** Every import of a live template is an export of the live template of the
    stack it points into. *)
Definition noDanglingImport (d : Deployed) : bool :=
  forallb (λ kt,
    forallb (λ r,
      bool_decide (r ∈ default [] (exports <$> child (refStack r) d)))
      (imports kt.2)) d.

(** ** The two-phase migration of the narrative ("Solution 2") *)
Module TwoPhase.


(** Phase 1, consuming stack: [lib/consumer-with-csr.ts] with the
    environment entry and the grant removed; the props keep their type. *)
Definition OrderServiceStack_phase1 (id : string)
    (props : OrderServiceStack.Props.t) : M OrderServiceStack.t :=
  this ← Stack_new id;
  readUser ← NodejsFunction_new this "OrderFunction"
    (NodejsFunctionProps.mk "./lib/lambdas/handler.ts" ∅);
  mret (OrderServiceStack.mk this).

(** State A: the coupled pair as [bin/problemStack.ts] wires it. *)
Definition codeA : M unit :=
  userServiceStack ← UserServiceStack.new "UserService";
  _ ← OrderServiceStack.new "OrderService"
        (OrderServiceStack.Props.mk
           (UserServiceStack.usersTable userServiceStack));
  mret ().


(** State C ("Phase 2"): the dummy export removed again. *)
Definition codeC : M unit :=
  userServiceStack ← UserServiceStack.new "UserService";
  _ ← OrderServiceStack_phase1 "OrderService"
        (OrderServiceStack.Props.mk
           (UserServiceStack.usersTable userServiceStack));
  mret ().

Definition templatesOf (code : M unit) : list (string * Template) :=
  match code App_new with
  | Ok (_, app) => synth app
  | Throw _ => []
  end.

Definition templateOf (code : M unit) (sid : string) : Template :=
  default (mkTemplate [] []) (child sid (templatesOf code)).

Definition producer : string := "UserService".
Definition consumer : string := "OrderService".
Definition tableRef : Reference := mkReference "UserService" "UsersTable".

(** The first deployment of the coupled pair. *)
Definition deployedA : DeployError + Deployed :=
  deployInOrder (templatesOf codeA) [].

(** The artifacts of the decoupled code: the consumer of phase 1, which no
    longer uses the table, and the producer without any export. *)
Definition consumerDecoupled : Template := templateOf codeC consumer.
Definition producerDecoupled : Template := templateOf codeC producer.

(** A coupled pair on the platform: the producer exports [e], the consumer
    imports [i]. *)
Definition coupled (e i : list Reference) : Deployed :=
  [(producer, mkTemplate [] e); (consumer, mkTemplate i [])].

(** The deployments the procedure attempts from a coupled pair on: the
    producer with whatever exports it declares (a dummy export kept, or
    none), and the consumer without its imports. *)
Inductive attempt : string * Template → Prop :=
| attempt_producer (e : list Reference) : attempt (producer, mkTemplate [] e)
| attempt_consumer : attempt (consumer, consumerDecoupled).

(** The platform states that the attempts lead to, in any order and any
    number; an attempt the platform refuses leaves the state as it is. *)
Inductive reachable (d0 : Deployed) : Deployed → Prop :=
| reachable_start : reachable d0 d0
| reachable_deploy (d d' : Deployed) (sid : string) (t : Template) :
    reachable d0 d → attempt (sid, t) → deployStack sid t d = inr d' →
    reachable d0 d'.

End TwoPhase.

(** ** What the constructors build *)

(** The stack the two producers build around a table of the given name. *)
Definition producerStack (name : string) : Stack :=
  mkStack
    [("UsersTable", CTableV2 (TablePropsV2.mk name (Attribute.mk "PK" STRING)))]
    [].

Definition handlerEntry : string := "./lib/lambdas/handler.ts".

(** The stack the direct-reference consumer builds from a handle. *)
Definition directConsumerStack (table : ITableV2.t) : Stack :=
  mkStack
    [("OrderFunction",
      CNodejsFunction
        (NodejsFunctionProps.mk handlerEntry
           {[ "USER_TABLE" := ITableV2.tableName table ]})
        [mkStatement ReadData table])]
    [].

(** The handle the configuration-based consumer [id] re-resolves. *)
Definition importedHandle (id name : string) : ITableV2.t :=
  ITableV2.Imported id "ImportedUsersTable" (TableAttributesV2.mk name []).

(** The stack the configuration-based consumer [id] builds from a name. *)
Definition configConsumerStack (id name : string) : Stack :=
  mkStack
    [("ImportedUsersTable", CImportedTable (TableAttributesV2.mk name []));
     ("OrderFunction",
      CNodejsFunction
        (NodejsFunctionProps.mk handlerEntry
           {[ "USER_TABLE_NAME" := Literal name ]})
        [mkStatement ReadData (importedHandle id name)])]
    [].

(** ** The configuration-based consumer as the specification words it *)

(** "Re-resolve a handle from the name, then proceed identically to the
    direct-reference consumer": the import by attributes followed by the
    body of [OrderServiceStack] on the re-resolved handle. *)
Definition ConfigBasedOrderServiceStack_asDirect (id : string)
    (props : ConfigBasedOrderServiceStack.Props.t)
  : M ConfigBasedOrderServiceStack.t :=
  this ← Stack_new id;
  usersTable ← TableV2_fromTableAttributes this "ImportedUsersTable"
    (TableAttributesV2.mk
       (ConfigBasedOrderServiceStack.Props.usersTableName props) []);
  _ ← OrderServiceStack.body this (OrderServiceStack.Props.mk usersTable);
  mret (ConfigBasedOrderServiceStack.mk this).

(** A construct with the names of its environment variables forgotten: a
    function keeps the values of its environment only. *)
Inductive Outline :=
| OTable (props : TablePropsV2.t)
| OImportedTable (attrs : TableAttributesV2.t)
| OFunction (entry : string) (envValues : list Value)
            (policy : list Statement).

Definition outline (c : Construct) : Outline :=
  match c with
  | CTableV2 props => OTable props
  | CImportedTable attrs => OImportedTable attrs
  | CNodejsFunction props policy =>
      OFunction (NodejsFunctionProps.entry props)
                (map_to_list (NodejsFunctionProps.environment props)).*2
                policy
  end.

Definition stackOutline (s : Stack)
  : list (string * Outline) * list Reference :=
  ((λ kc, (kc.1, outline kc.2)) <$> children s, exportValues s).

Definition appOutline (app : App)
  : list (string * (list (string * Outline) * list Reference)) :=
  (λ ks, (ks.1, stackOutline ks.2)) <$> app.

(** The outcome of a construction, up to the names of environment
    variables. *)
Definition outcomeOutline {A} (r : Result (A * App))
  : Result (A * list (string * (list (string * Outline) * list Reference))) :=
  match r with
  | Ok (a, app) => Ok (a, appOutline app)
  | Throw e => Throw e
  end.

(** The environment variable the function of a freshly built consumer has
    under the key [k]. *)
Definition envAt {A} (id k : string) (r : Result (A * App)) : option Value :=
  match r with
  | Ok (_, app) =>
      p ← functionOf app id "OrderFunction";
      NodejsFunctionProps.environment p.1 !! k
  | Throw _ => None
  end.

(** The stacks of an app that belong to a pair. *)
Definition restrictTo (ids : list string) (app : App) : App :=
  filter (λ ks, ks.1 ∈ ids) app.

Definition directPair : list string := ["UserService"; "OrderService"].
Definition configPair : list string :=
  ["ConfigBasedUserService"; "ConfigBasedOrderService"].

(** The app [bin/problemStack.ts] builds, written out. *)
Definition entryApp : App :=
  [("UserService", producerStack "Users");
   ("OrderService",
    directConsumerStack (ITableV2.Created "UserService" "UsersTable"));
   ("ConfigBasedUserService", producerStack "Users");
   ("ConfigBasedOrderService",
    configConsumerStack "ConfigBasedOrderService" "Users")].

(** The names of the tables an app defines. *)
Definition tableNames (app : App) : list string :=
  (λ d, TablePropsV2.tableName d.2) <$> tableDefinitions app.

(** * Proofs *)

(** ** Named children *)

Lemma child_app_new {A} (id : string) (a : A) (l : list (string * A)) :
  child id l = None → child id (l ++ [(id, a)]) = Some a.
Proof.
  induction l as [|[k b] l IH]; simpl.
  - intros _. by rewrite decide_True.
  - destruct (decide (k = id)); [done | exact IH].
Qed.

Lemma alterChild_app_new {A} (f : A → A) (id : string) (a : A)
    (l : list (string * A)) :
  child id l = None → alterChild f id (l ++ [(id, a)]) = l ++ [(id, f a)].
Proof.
  induction l as [|[k b] l IH]; simpl.
  - intros _. by rewrite decide_True.
  - destruct (decide (k = id)); [done |]. intros H. by rewrite IH.
Qed.

(** ** Running the constructors on an arbitrary scope *)

Lemma Stack_new_fresh (scope : App) (id : string) :
  child id scope = None →
  Stack_new id scope = Ok (id, scope ++ [(id, mkStack [] [])]).
Proof. intros H. unfold Stack_new, mbind, M_bind, getApp. by rewrite H. Qed.

Lemma Stack_new_taken (scope : App) (id : string) (s : Stack) :
  child id scope = Some s →
  Stack_new id scope = Throw (DuplicateConstruct "App" id).
Proof. intros H. unfold Stack_new, mbind, M_bind, getApp. by rewrite H. Qed.

Lemma addChild_last (scope : App) (this id : string) (s : Stack)
    (c : Construct) :
  child this scope = None →
  child id (children s) = None →
  addChild this id c (scope ++ [(this, s)])
  = Ok ((), scope ++ [(this, mkStack (children s ++ [(id, c)]) (exportValues s))]).
Proof.
  intros Hs Hc. unfold addChild, mbind, M_bind, getApp, putApp.
  rewrite (child_app_new _ _ _ Hs), Hc.
  by rewrite (alterChild_app_new _ _ _ _ Hs).
Qed.

Lemma grantReadData_last (scope : App) (this fid : string) (s : Stack)
    (table : ITableV2.t) (props : NodejsFunctionProps.t)
    (policy : list Statement) :
  child this scope = None →
  child fid (children s) = Some (CNodejsFunction props policy) →
  grantReadData table (mkFunctionRef this fid) (scope ++ [(this, s)])
  = Ok ((), scope ++ [(this,
                       mkStack (alterChild
                                  (addToPolicy (mkStatement ReadData table))
                                  fid (children s))
                               (exportValues s))]).
Proof.
  intros Hs Hc. unfold grantReadData, mbind, M_bind, getApp, putApp. simpl.
  rewrite (child_app_new _ _ _ Hs), Hc.
  by rewrite (alterChild_app_new _ _ _ _ Hs).
Qed.

Lemma bind_Ok {A B} (m : M A) (f : A → M B) (app app' : App) (a : A) :
  m app = Ok (a, app') → (m ≫= f) app = f a app'.
Proof. intros H. unfold mbind, M_bind. by rewrite H. Qed.

Lemma bind_Throw {A B} (m : M A) (f : A → M B) (app : App) (e : Error) :
  m app = Throw e → (m ≫= f) app = Throw e.
Proof. intros H. unfold mbind, M_bind. by rewrite H. Qed.

Lemma TableV2_new_last (scope : App) (this id : string) (s : Stack)
    (props : TablePropsV2.t) :
  child this scope = None →
  child id (children s) = None →
  TableV2_new this id props (scope ++ [(this, s)])
  = Ok (ITableV2.Created this id,
        scope ++ [(this, mkStack (children s ++ [(id, CTableV2 props)])
                                 (exportValues s))]).
Proof.
  intros Hs Hc. unfold TableV2_new.
  by rewrite (bind_Ok _ _ _ _ _ (addChild_last _ _ _ _ _ Hs Hc)).
Qed.

Lemma producer_new_fresh (scope : App) (id : string) :
  child id scope = None →
  UserServiceStack.new id scope
  = Ok (UserServiceStack.mk id (ITableV2.Created id "UsersTable"),
        scope ++ [(id, producerStack "Users")]).
Proof.
  intros H. unfold UserServiceStack.new.
  rewrite (bind_Ok _ _ _ _ _ (Stack_new_fresh _ _ H)).
  by rewrite (bind_Ok _ _ _ _ _
               (TableV2_new_last scope id "UsersTable" (mkStack [] []) _ H eq_refl)).
Qed.

Lemma config_producer_new_fresh (scope : App) (id : string)
    (props : ConfigBasedUserServiceStack.Props.t) :
  child id scope = None →
  ConfigBasedUserServiceStack.new id props scope
  = Ok (ConfigBasedUserServiceStack.mk id (ITableV2.Created id "UsersTable"),
        scope ++ [(id, producerStack
                         (ConfigBasedUserServiceStack.Props.usersTableName props))]).
Proof.
  intros H. unfold ConfigBasedUserServiceStack.new.
  rewrite (bind_Ok _ _ _ _ _ (Stack_new_fresh _ _ H)).
  by rewrite (bind_Ok _ _ _ _ _
               (TableV2_new_last scope id "UsersTable" (mkStack [] []) _ H eq_refl)).
Qed.

Lemma NodejsFunction_new_last (scope : App) (this id : string) (s : Stack)
    (props : NodejsFunctionProps.t) :
  child this scope = None →
  child id (children s) = None →
  NodejsFunction_new this id props (scope ++ [(this, s)])
  = Ok (mkFunctionRef this id,
        scope ++ [(this, mkStack (children s ++ [(id, CNodejsFunction props [])])
                                 (exportValues s))]).
Proof.
  intros Hs Hc. unfold NodejsFunction_new.
  by rewrite (bind_Ok _ _ _ _ _ (addChild_last _ _ _ _ _ Hs Hc)).
Qed.

Lemma fromTableAttributes_last (scope : App) (this id : string) (s : Stack)
    (attrs : TableAttributesV2.t) :
  child this scope = None →
  child id (children s) = None →
  TableV2_fromTableAttributes this id attrs (scope ++ [(this, s)])
  = Ok (ITableV2.Imported this id attrs,
        scope ++ [(this, mkStack (children s ++ [(id, CImportedTable attrs)])
                                 (exportValues s))]).
Proof.
  intros Hs Hc. unfold TableV2_fromTableAttributes.
  by rewrite (bind_Ok _ _ _ _ _ (addChild_last _ _ _ _ _ Hs Hc)).
Qed.

Lemma direct_body_last (scope : App) (this : string) (s : Stack)
    (props : OrderServiceStack.Props.t) :
  child this scope = None →
  child "OrderFunction" (children s) = None →
  OrderServiceStack.body this props (scope ++ [(this, s)])
  = Ok ((), scope ++ [(this,
            mkStack (children s ++ children
                       (directConsumerStack
                          (OrderServiceStack.Props.usersTable props)))
                    (exportValues s))]).
Proof.
  intros H Hf. unfold OrderServiceStack.body.
  rewrite (bind_Ok _ _ _ _ _ (NodejsFunction_new_last _ _ _ _ _ H Hf)).
  rewrite (grantReadData_last scope this "OrderFunction"
             (mkStack (children s ++ [("OrderFunction", _)]) (exportValues s))
             _ _ [] H (child_app_new _ _ _ Hf)).
  simpl. by rewrite (alterChild_app_new _ _ _ _ Hf).
Qed.

Lemma direct_consumer_new_fresh (scope : App) (id : string)
    (props : OrderServiceStack.Props.t) :
  child id scope = None →
  OrderServiceStack.new id props scope
  = Ok (OrderServiceStack.mk id,
        scope ++ [(id, directConsumerStack
                         (OrderServiceStack.Props.usersTable props))]).
Proof.
  intros H. unfold OrderServiceStack.new.
  rewrite (bind_Ok _ _ _ _ _ (Stack_new_fresh _ _ H)).
  by rewrite (bind_Ok _ _ _ _ _
               (direct_body_last scope id (mkStack [] []) props H eq_refl)).
Qed.

Lemma config_consumer_new_fresh (scope : App) (id : string)
    (props : ConfigBasedOrderServiceStack.Props.t) :
  child id scope = None →
  ConfigBasedOrderServiceStack.new id props scope
  = Ok (ConfigBasedOrderServiceStack.mk id,
        scope ++ [(id, configConsumerStack id
                         (ConfigBasedOrderServiceStack.Props.usersTableName props))]).
Proof.
  intros H. unfold ConfigBasedOrderServiceStack.new.
  rewrite (bind_Ok _ _ _ _ _ (Stack_new_fresh _ _ H)).
  rewrite (bind_Ok _ _ _ _ _
             (fromTableAttributes_last scope id "ImportedUsersTable"
                (mkStack [] []) _ H eq_refl)).
  simpl.
  rewrite (bind_Ok _ _ _ _ _
             (NodejsFunction_new_last scope id "OrderFunction"
                (mkStack [("ImportedUsersTable", _)] []) _ H eq_refl)).
  simpl.
  by rewrite (bind_Ok _ _ _ _ _
               (grantReadData_last scope id "OrderFunction"
                  (mkStack [("ImportedUsersTable", _); ("OrderFunction", _)] [])
                  _ _ [] H eq_refl)).
Qed.

(** A taken id makes every constructor fail before it defines anything. *)
Lemma config_consumer_new_taken (scope : App) (id : string) (s : Stack)
    (props : ConfigBasedOrderServiceStack.Props.t) :
  child id scope = Some s →
  ConfigBasedOrderServiceStack.new id props scope
  = Throw (DuplicateConstruct "App" id).
Proof.
  intros H. unfold ConfigBasedOrderServiceStack.new.
  by rewrite (bind_Throw _ _ _ _ (Stack_new_taken _ _ _ H)).
Qed.

Lemma functionOf_last (scope : App) (id fid : string) (s : Stack) :
  child id scope = None →
  functionOf (scope ++ [(id, s)]) id fid
  = match child fid (children s) with
    | Some (CNodejsFunction props policy) => Some (props, policy)
    | _ => None
    end.
Proof.
  intros H. unfold functionOf. rewrite (child_app_new _ _ _ H). simpl.
  by destruct (child fid (children s)).
Qed.

(** ** The consuming units *)

(** C7: for every valid input (an id not yet taken in the scope), each of
    the two consuming units is constructed and declares a read grant from the
    function it defines, [OrderFunction], to the users table: the handle it
    was given (direct-reference unit) or the handle it re-resolved under
    [ImportedUsersTable] (configuration-based unit). *)
Theorem consumers_declare_read_grant (scope : App) (id : string)
    (dprops : OrderServiceStack.Props.t)
    (cprops : ConfigBasedOrderServiceStack.Props.t) :
  child id scope = None →
  (∃ inst scope' fprops,
      OrderServiceStack.new id dprops scope = Ok (inst, scope')
      ∧ functionOf scope' id "OrderFunction"
        = Some (fprops,
                [mkStatement ReadData (OrderServiceStack.Props.usersTable dprops)]))
  ∧ (∃ inst scope' s attrs fprops,
      ConfigBasedOrderServiceStack.new id cprops scope = Ok (inst, scope')
      ∧ child id scope' = Some s
      ∧ child "ImportedUsersTable" (children s) = Some (CImportedTable attrs)
      ∧ functionOf scope' id "OrderFunction"
        = Some (fprops,
                [mkStatement ReadData
                   (ITableV2.Imported id "ImportedUsersTable" attrs)])).
Proof.
  intros H. split.
  - eexists _, _, _. split; [exact (direct_consumer_new_fresh _ _ _ H) |].
    by rewrite (functionOf_last _ _ _ _ H).
  - eexists _, _, _, _, _.
    split; [exact (config_consumer_new_fresh _ _ _ H) |].
    split; [exact (child_app_new _ _ _ H) |].
    split; [reflexivity |].
    by rewrite (functionOf_last _ _ _ _ H).
Qed.

(** An instance: the direct-reference consumer of the entry point and a
    configuration-based consumer, each in a scope holding a producer. *)
Lemma consumers_declare_read_grant_witness :
  (∃ inst scope' fprops,
      OrderServiceStack.new "OrderService"
        (OrderServiceStack.Props.mk (ITableV2.Created "UserService" "UsersTable"))
        [("UserService", producerStack "Users")]
      = Ok (inst, scope')
      ∧ functionOf scope' "OrderService" "OrderFunction"
        = Some (fprops,
                [mkStatement ReadData
                   (ITableV2.Created "UserService" "UsersTable")]))
  ∧ (∃ inst scope' s attrs fprops,
      ConfigBasedOrderServiceStack.new "OrderService"
        (ConfigBasedOrderServiceStack.Props.mk "Users")
        [("UserService", producerStack "Users")]
      = Ok (inst, scope')
      ∧ child "OrderService" scope' = Some s
      ∧ child "ImportedUsersTable" (children s) = Some (CImportedTable attrs)
      ∧ functionOf scope' "OrderService" "OrderFunction"
        = Some (fprops,
                [mkStatement ReadData
                   (ITableV2.Imported "OrderService" "ImportedUsersTable" attrs)])).
Proof.
  exact (consumers_declare_read_grant
           [("UserService", producerStack "Users")] "OrderService"
           (OrderServiceStack.Props.mk (ITableV2.Created "UserService" "UsersTable"))
           (ConfigBasedOrderServiceStack.Props.mk "Users")
           eq_refl).
Defined.

(** C9: in the configuration-based consuming unit, for every props the
    framework accepts (a non-empty table name; the id well-formed and free),
    the name the table is re-resolved with, the name of the table the grant
    is on, and the value of the function's [USER_TABLE_NAME] environment
    variable are the same string, [props.usersTableName]. *)
Theorem config_consumer_names_agree (scope : App) (id : string)
    (props : ConfigBasedOrderServiceStack.Props.t) :
  child id scope = None →
  validStackId id = true →
  ConfigBasedOrderServiceStack.Props.usersTableName props ≠ "" →
  ∃ inst scope' s attrs fprops table,
    ConfigBasedOrderServiceStack.new id props scope = Ok (inst, scope')
    ∧ child id scope' = Some s
    ∧ child "ImportedUsersTable" (children s) = Some (CImportedTable attrs)
    ∧ functionOf scope' id "OrderFunction"
      = Some (fprops, [mkStatement ReadData table])
    ∧ TableAttributesV2.tableName attrs
      = ConfigBasedOrderServiceStack.Props.usersTableName props
    ∧ ITableV2.tableName table
      = Literal (ConfigBasedOrderServiceStack.Props.usersTableName props)
    ∧ NodejsFunctionProps.environment fprops !! "USER_TABLE_NAME"
      = Some (Literal (ConfigBasedOrderServiceStack.Props.usersTableName props))
    ∧ NodejsFunctionProps.environment fprops !! "USER_TABLE_NAME"
      = Some (ITableV2.tableName table).
Proof.
  intros H _ _. eexists _, _, _, _, _, _.
  split; [exact (config_consumer_new_fresh _ _ _ H) |].
  split; [exact (child_app_new _ _ _ H) |].
  split; [reflexivity |].
  split; [by rewrite (functionOf_last _ _ _ _ H) |].
  simpl. repeat split; apply lookup_singleton_eq.
Qed.

(** An instance: the name ["Orders"] in the empty app. *)
Lemma config_consumer_names_agree_witness :
  ∃ inst scope' s attrs fprops table,
    ConfigBasedOrderServiceStack.new "ConfigBasedOrderService"
      (ConfigBasedOrderServiceStack.Props.mk "Orders") App_new
    = Ok (inst, scope')
    ∧ child "ConfigBasedOrderService" scope' = Some s
    ∧ child "ImportedUsersTable" (children s) = Some (CImportedTable attrs)
    ∧ functionOf scope' "ConfigBasedOrderService" "OrderFunction"
      = Some (fprops, [mkStatement ReadData table])
    ∧ TableAttributesV2.tableName attrs = "Orders"
    ∧ ITableV2.tableName table = Literal "Orders"
    ∧ NodejsFunctionProps.environment fprops !! "USER_TABLE_NAME"
      = Some (Literal "Orders")
    ∧ NodejsFunctionProps.environment fprops !! "USER_TABLE_NAME"
      = Some (ITableV2.tableName table).
Proof.
  exact (config_consumer_names_agree App_new "ConfigBasedOrderService"
           (ConfigBasedOrderServiceStack.Props.mk "Orders") eq_refl eq_refl
           ltac:(discriminate)).
Defined.

(** C10: for every input table name the framework accepts (non-empty; the
    id well-formed and free), the configuration-based consuming unit
    re-resolves the table with an empty global-secondary-index list, so the
    handle it grants on carries no secondary-index metadata, whatever the
    name. *)
Theorem config_consumer_no_index_metadata (scope : App) (id : string)
    (props : ConfigBasedOrderServiceStack.Props.t) :
  child id scope = None →
  validStackId id = true →
  ConfigBasedOrderServiceStack.Props.usersTableName props ≠ "" →
  ∃ inst scope' s attrs fprops table,
    ConfigBasedOrderServiceStack.new id props scope = Ok (inst, scope')
    ∧ child id scope' = Some s
    ∧ child "ImportedUsersTable" (children s) = Some (CImportedTable attrs)
    ∧ TableAttributesV2.globalIndexes attrs = []
    ∧ functionOf scope' id "OrderFunction"
      = Some (fprops, [mkStatement ReadData table])
    ∧ table = ITableV2.Imported id "ImportedUsersTable" attrs
    ∧ ITableV2.globalIndexes table = [].
Proof.
  intros H _ _. eexists _, _, _, _, _, _.
  split; [exact (config_consumer_new_fresh _ _ _ H) |].
  split; [exact (child_app_new _ _ _ H) |].
  split; [reflexivity |].
  split; [reflexivity |].
  split; [by rewrite (functionOf_last _ _ _ _ H) |].
  split; reflexivity.
Qed.

(** An instance: the name ["Users"] in the empty app. *)
Lemma config_consumer_no_index_metadata_witness :
  ∃ inst scope' s attrs fprops table,
    ConfigBasedOrderServiceStack.new "ConfigBasedOrderService"
      (ConfigBasedOrderServiceStack.Props.mk "Users") App_new
    = Ok (inst, scope')
    ∧ child "ConfigBasedOrderService" scope' = Some s
    ∧ child "ImportedUsersTable" (children s) = Some (CImportedTable attrs)
    ∧ TableAttributesV2.globalIndexes attrs = []
    ∧ functionOf scope' "ConfigBasedOrderService" "OrderFunction"
      = Some (fprops, [mkStatement ReadData table])
    ∧ table = ITableV2.Imported "ConfigBasedOrderService" "ImportedUsersTable" attrs
    ∧ ITableV2.globalIndexes table = [].
Proof.
  exact (config_consumer_no_index_metadata App_new "ConfigBasedOrderService"
           (ConfigBasedOrderServiceStack.Props.mk "Users") eq_refl eq_refl
           ltac:(discriminate)).
Defined.

(** ** The configuration-based pair *)

Lemma config_consumer_no_references (id name : string) :
  stackReferences (configConsumerStack id name) = [].
Proof.
  unfold stackReferences, configConsumerStack. simpl.
  by rewrite map_to_list_singleton.
Qed.

Lemma stackImports_no_references (sid : string) (s : Stack) :
  stackReferences s = [] → stackImports sid s = [].
Proof. intros H. unfold stackImports. by rewrite H. Qed.

(** C4: for every table name the framework accepts (non-empty; the ids
    well-formed and free), the configuration-based consuming unit is built
    from the name alone: whatever the scope it is constructed in (with or
    without the producing unit), it builds the same stack, which holds no
    reference to any other definition and so imports nothing in any app; the
    producing unit likewise builds the same stack in every scope. In the app
    of the entry point, with the shared name ["Users"], the consumer's
    artifact has no import and the producer's artifact no export. *)
Theorem config_pair_independent (scope scope' : App) (cid pid name : string) :
  child cid scope = None → child cid scope' = None →
  child pid scope = None → child pid scope' = None →
  validStackId cid = true → validStackId pid = true →
  name ≠ "" →
  (∃ cinst pinst cs ps,
      ConfigBasedOrderServiceStack.new cid
        (ConfigBasedOrderServiceStack.Props.mk name) scope
      = Ok (cinst, scope ++ [(cid, cs)])
      ∧ ConfigBasedOrderServiceStack.new cid
          (ConfigBasedOrderServiceStack.Props.mk name) scope'
        = Ok (cinst, scope' ++ [(cid, cs)])
      ∧ stackReferences cs = []
      ∧ (∀ app : App, imports (synthStack app cid cs) = [])
      ∧ ConfigBasedUserServiceStack.new pid
          (ConfigBasedUserServiceStack.Props.mk name) scope
        = Ok (pinst, scope ++ [(pid, ps)])
      ∧ ConfigBasedUserServiceStack.new pid
          (ConfigBasedUserServiceStack.Props.mk name) scope'
        = Ok (pinst, scope' ++ [(pid, ps)]))
  ∧ (∃ app,
      problemStack.app = Ok ((), app)
      ∧ child "ConfigBasedOrderService" (synth app) = Some (mkTemplate [] [])
      ∧ child "ConfigBasedUserService" (synth app) = Some (mkTemplate [] [])).
Proof.
  intros Hc Hc' Hp Hp' _ _ _. split.
  - eexists _, _, _, _.
    split; [exact (config_consumer_new_fresh _ _ _ Hc) |].
    split; [exact (config_consumer_new_fresh _ _ _ Hc') |].
    split; [apply config_consumer_no_references |].
    split.
    { intros app. simpl. apply stackImports_no_references,
        config_consumer_no_references. }
    split; [exact (config_producer_new_fresh _ _ _ Hp) |].
    exact (config_producer_new_fresh _ _ _ Hp').
  - eexists. split; [vm_compute; reflexivity |]. split; vm_compute; reflexivity.
Qed.

(** An instance: the name ["Users"], in the empty app and in an app that
    already holds a producer. *)
Lemma config_pair_independent_witness :
  (∃ cinst pinst cs ps,
      ConfigBasedOrderServiceStack.new "ConfigBasedOrderService"
        (ConfigBasedOrderServiceStack.Props.mk "Users") App_new
      = Ok (cinst, App_new ++ [("ConfigBasedOrderService", cs)])
      ∧ ConfigBasedOrderServiceStack.new "ConfigBasedOrderService"
          (ConfigBasedOrderServiceStack.Props.mk "Users")
          [("UserService", producerStack "Users")]
        = Ok (cinst, [("UserService", producerStack "Users")]
                       ++ [("ConfigBasedOrderService", cs)])
      ∧ stackReferences cs = []
      ∧ (∀ app : App, imports (synthStack app "ConfigBasedOrderService" cs) = [])
      ∧ ConfigBasedUserServiceStack.new "ConfigBasedUserService"
          (ConfigBasedUserServiceStack.Props.mk "Users") App_new
        = Ok (pinst, App_new ++ [("ConfigBasedUserService", ps)])
      ∧ ConfigBasedUserServiceStack.new "ConfigBasedUserService"
          (ConfigBasedUserServiceStack.Props.mk "Users")
          [("UserService", producerStack "Users")]
        = Ok (pinst, [("UserService", producerStack "Users")]
                       ++ [("ConfigBasedUserService", ps)]))
  ∧ (∃ app,
      problemStack.app = Ok ((), app)
      ∧ child "ConfigBasedOrderService" (synth app) = Some (mkTemplate [] [])
      ∧ child "ConfigBasedUserService" (synth app) = Some (mkTemplate [] [])).
Proof.
  exact (config_pair_independent App_new
           [("UserService", producerStack "Users")]
           "ConfigBasedOrderService" "ConfigBasedUserService" "Users"
           eq_refl eq_refl eq_refl eq_refl eq_refl eq_refl
           ltac:(discriminate)).
Defined.

(** ** The app of the entry point *)

(** C6: in the direct-reference pair as the entry point wires it, the
    producing unit is constructed first, exposes the table it defines as the
    public attribute [usersTable], and the consuming unit is constructed next
    with exactly that handle: its grant is on it, its artifact imports the
    reference to the producer's table and nothing else, and that reference is
    the one export of the producer's artifact. *)
Theorem direct_pair_coupled :
  ∃ inst app1 cinst app2 app fprops,
    UserServiceStack.new "UserService" App_new = Ok (inst, app1)
    ∧ publicTables inst = [("usersTable", UserServiceStack.usersTable inst)]
    ∧ ITableV2.references (UserServiceStack.usersTable inst)
      = [mkReference "UserService" "UsersTable"]
    ∧ physicalName app1 (mkReference "UserService" "UsersTable") = Some "Users"
    ∧ OrderServiceStack.new "OrderService"
        (OrderServiceStack.Props.mk (UserServiceStack.usersTable inst)) app1
      = Ok (cinst, app2)
    ∧ problemStack.app = Ok ((), app)
    ∧ take 2 app = app2
    ∧ app.*1 = ["UserService"; "OrderService";
                "ConfigBasedUserService"; "ConfigBasedOrderService"]
    ∧ functionOf app "OrderService" "OrderFunction"
      = Some (fprops, [mkStatement ReadData (UserServiceStack.usersTable inst)])
    ∧ child "OrderService" (synth app)
      = Some (mkTemplate [mkReference "UserService" "UsersTable"] [])
    ∧ child "UserService" (synth app)
      = Some (mkTemplate [] [mkReference "UserService" "UsersTable"]).
Proof.
  eexists _, _, _, _, _, _.
  split; [vm_compute; reflexivity |].
  split; [reflexivity |].
  split; [reflexivity |].
  split; [reflexivity |].
  split; [vm_compute; reflexivity |].
  split; [vm_compute; reflexivity |].
  split; [reflexivity |].
  split; [reflexivity |].
  split; [reflexivity |].
  split; vm_compute; reflexivity.
Qed.

Lemma problemStack_app : problemStack.app = Ok ((), entryApp).
Proof.
  unfold problemStack.app, problemStack.main, App_new.
  rewrite (bind_Ok _ _ _ _ _ (producer_new_fresh [] "UserService" eq_refl)).
  simpl.
  rewrite (bind_Ok _ _ _ _ _
             (direct_consumer_new_fresh
                [("UserService", producerStack "Users")] "OrderService"
                (OrderServiceStack.Props.mk _) eq_refl)).
  simpl.
  rewrite (bind_Ok _ _ _ _ _
             (config_producer_new_fresh
                [("UserService", producerStack "Users"); ("OrderService", _)]
                "ConfigBasedUserService"
                (ConfigBasedUserServiceStack.Props.mk _) eq_refl)).
  simpl.
  by rewrite (bind_Ok _ _ _ _ _
                (config_consumer_new_fresh
                   [("UserService", producerStack "Users");
                    ("OrderService", _); ("ConfigBasedUserService", _)]
                   "ConfigBasedOrderService"
                   (ConfigBasedOrderServiceStack.Props.mk _) eq_refl)).
Qed.

(** C2, as stated, fails: the name ["Users"] occurs in the app of the entry
    point, and two table-creating definitions carry it. *)
Lemma two_definitions_named_Users :
  ∃ app,
    problemStack.app = Ok ((), app)
    ∧ "Users" ∈ tableNames app
    ∧ length (tableDefinitionsNamed app "Users") = 2
    ∧ length (tableDefinitionsNamed app "Users") ≠ 1.
Proof.
  exists entryApp. split; [exact problemStack_app |].
  split; [vm_compute; left |]. split; [reflexivity | discriminate].
Qed.

(** C2, amended: in the app of the entry point each of the two pairs holds
    exactly one table-creating definition, named ["Users"], in its producing
    stack; the app as a whole holds these two definitions, which are distinct,
    and defines no table of another name. *)
Theorem one_definition_per_pair :
  ∃ app,
    problemStack.app = Ok ((), app)
    ∧ tableDefinitionsNamed (restrictTo directPair app) "Users"
      = [mkReference "UserService" "UsersTable"]
    ∧ tableDefinitionsNamed (restrictTo configPair app) "Users"
      = [mkReference "ConfigBasedUserService" "UsersTable"]
    ∧ tableDefinitionsNamed app "Users"
      = [mkReference "UserService" "UsersTable";
         mkReference "ConfigBasedUserService" "UsersTable"]
    ∧ NoDup (tableDefinitionsNamed app "Users")
    ∧ tableNames app = ["Users"; "Users"].
Proof.
  exists entryApp. split; [exact problemStack_app |].
  split; [vm_compute; reflexivity |].
  split; [vm_compute; reflexivity |].
  split; [vm_compute; reflexivity |].
  split; [| reflexivity].
  change (tableDefinitionsNamed entryApp "Users")
    with [mkReference "UserService" "UsersTable";
          mkReference "ConfigBasedUserService" "UsersTable"].
  apply NoDup_cons. split; [| apply NoDup_singleton].
  rewrite list_elem_of_singleton. discriminate.
Qed.

(** C3, as stated, fails for the direct-reference pair: the function of
    [OrderService] has one environment variable, [USER_TABLE], and its value
    is the reference to the producer's table, not a literal string. *)
Lemma direct_consumer_environment_is_a_reference :
  ∃ app fprops policy,
    problemStack.app = Ok ((), app)
    ∧ functionOf app "OrderService" "OrderFunction" = Some (fprops, policy)
    ∧ map_to_list (NodejsFunctionProps.environment fprops)
      = [("USER_TABLE", Token (mkReference "UserService" "UsersTable"))]
    ∧ ∀ k, NodejsFunctionProps.environment fprops !! k
           ≠ Some (Literal "Users").
Proof.
  exists entryApp. eexists _, _. split; [exact problemStack_app |].
  split; [reflexivity |]. simpl.
  split; [apply map_to_list_singleton |].
  intros k. rewrite lookup_singleton. case_decide; discriminate.
Qed.

(** C3, amended: as the entry point wires them, the function of the
    configuration-based consumer has the environment variable
    [USER_TABLE_NAME] with the literal value ["Users"]; the function of the
    direct-reference consumer has the environment variable [USER_TABLE] whose
    value is the reference to the producer's table, which the platform
    resolves to ["Users"], the name that table is defined with. *)
Theorem consumers_environment_names_Users :
  ∃ app cprops cpolicy dprops dpolicy,
    problemStack.app = Ok ((), app)
    ∧ functionOf app "ConfigBasedOrderService" "OrderFunction"
      = Some (cprops, cpolicy)
    ∧ NodejsFunctionProps.environment cprops !! "USER_TABLE_NAME"
      = Some (Literal "Users")
    ∧ functionOf app "OrderService" "OrderFunction" = Some (dprops, dpolicy)
    ∧ NodejsFunctionProps.environment dprops !! "USER_TABLE"
      = Some (Token (mkReference "UserService" "UsersTable"))
    ∧ resolve app (Token (mkReference "UserService" "UsersTable"))
      = Some "Users"
    ∧ (resolve app <$> NodejsFunctionProps.environment cprops)
      = {[ "USER_TABLE_NAME" := Some "Users" ]}
    ∧ (resolve app <$> NodejsFunctionProps.environment dprops)
      = {[ "USER_TABLE" := Some "Users" ]}.
Proof.
  exists entryApp. eexists _, _, _, _. split; [exact problemStack_app |].
  split; [reflexivity |]. split; [apply lookup_singleton_eq |].
  split; [reflexivity |]. split; [apply lookup_singleton_eq |].
  split; [reflexivity |]. simpl.
  split; by rewrite map_fmap_singleton.
Qed.

(** ** The configuration-based producing unit *)

(** C1, as stated, fails: an instance of the configuration-based producing
    unit has the public attribute [usersTable], and it holds the handle of
    the table the unit defines. *)
Lemma config_producer_exposes_handle :
  ∃ inst scope',
    ConfigBasedUserServiceStack.new "ConfigBasedUserService"
      (ConfigBasedUserServiceStack.Props.mk "Users") App_new
    = Ok (inst, scope')
    ∧ publicTables inst
      = [("usersTable", ITableV2.Created "ConfigBasedUserService" "UsersTable")]
    ∧ publicTables inst ≠ [].
Proof.
  eexists _, _.
  split; [exact (config_producer_new_fresh App_new "ConfigBasedUserService"
                   (ConfigBasedUserServiceStack.Props.mk "Users") eq_refl) |].
  split; [reflexivity | discriminate].
Qed.

(** C1, amended: for every props, the configuration-based producing unit
    exposes, like the direct-reference one, the handle of the table it
    defines as its public attribute [usersTable], and the table carries the
    name given in the props. The entry point does not read that attribute:
    in the app it builds, no stack holds a reference to that table and the
    unit's artifact exports nothing, only the name string is passed on. *)
Theorem config_producer_public_interface (scope : App) (id : string)
    (props : ConfigBasedUserServiceStack.Props.t) :
  child id scope = None →
  (∃ inst scope',
      ConfigBasedUserServiceStack.new id props scope = Ok (inst, scope')
      ∧ publicTables inst = [("usersTable", ITableV2.Created id "UsersTable")]
      ∧ physicalName scope' (mkReference id "UsersTable")
        = Some (ConfigBasedUserServiceStack.Props.usersTableName props))
  ∧ (∃ app,
      problemStack.app = Ok ((), app)
      ∧ Forall (λ ks, mkReference "ConfigBasedUserService" "UsersTable"
                        ∉ stackReferences ks.2) app
      ∧ (exports <$> child "ConfigBasedUserService" (synth app)) = Some []).
Proof.
  intros H. split.
  - eexists _, _.
    split; [exact (config_producer_new_fresh _ _ _ H) |].
    split; [reflexivity |].
    unfold physicalName. simpl. by rewrite (child_app_new _ _ _ H).
  - exists entryApp. split; [exact problemStack_app |].
    split; [| vm_compute; reflexivity].
    assert (Hd : stackReferences
                   (directConsumerStack
                      (ITableV2.Created "UserService" "UsersTable"))
                 = [mkReference "UserService" "UsersTable";
                    mkReference "UserService" "UsersTable"]).
    { unfold stackReferences, directConsumerStack. simpl.
      by rewrite map_to_list_singleton. }
    repeat apply Forall_cons_2; simpl;
      rewrite ?Hd, ?config_consumer_no_references;
      try apply Forall_nil_2.
    + apply not_elem_of_nil.
    + rewrite !not_elem_of_cons.
      split; [discriminate |]. split; [discriminate |]. apply not_elem_of_nil.
    + apply not_elem_of_nil.
    + apply not_elem_of_nil.
Qed.

(** An instance: the props of the entry point, in the empty app. *)
Lemma config_producer_public_interface_witness :
  (∃ inst scope',
      ConfigBasedUserServiceStack.new "ConfigBasedUserService"
        (ConfigBasedUserServiceStack.Props.mk "Users") App_new
      = Ok (inst, scope')
      ∧ publicTables inst
        = [("usersTable", ITableV2.Created "ConfigBasedUserService" "UsersTable")]
      ∧ physicalName scope' (mkReference "ConfigBasedUserService" "UsersTable")
        = Some "Users")
  ∧ (∃ app,
      problemStack.app = Ok ((), app)
      ∧ Forall (λ ks, mkReference "ConfigBasedUserService" "UsersTable"
                        ∉ stackReferences ks.2) app
      ∧ (exports <$> child "ConfigBasedUserService" (synth app)) = Some []).
Proof.
  exact (config_producer_public_interface App_new "ConfigBasedUserService"
           (ConfigBasedUserServiceStack.Props.mk "Users") eq_refl).
Defined.

(** ** The two consuming units compared *)

Lemma asDirect_fresh (scope : App) (id : string)
    (props : ConfigBasedOrderServiceStack.Props.t) :
  child id scope = None →
  ConfigBasedOrderServiceStack_asDirect id props scope
  = Ok (ConfigBasedOrderServiceStack.mk id,
        scope ++ [(id,
          mkStack
            (("ImportedUsersTable",
              CImportedTable
                (TableAttributesV2.mk
                   (ConfigBasedOrderServiceStack.Props.usersTableName props) []))
             :: children
                  (directConsumerStack
                     (importedHandle id
                        (ConfigBasedOrderServiceStack.Props.usersTableName props))))
            [])]).
Proof.
  intros H. unfold ConfigBasedOrderServiceStack_asDirect.
  rewrite (bind_Ok _ _ _ _ _ (Stack_new_fresh _ _ H)).
  rewrite (bind_Ok _ _ _ _ _
             (fromTableAttributes_last scope id "ImportedUsersTable"
                (mkStack [] []) _ H eq_refl)).
  simpl.
  by rewrite (bind_Ok _ _ _ _ _
               (direct_body_last scope id
                  (mkStack [("ImportedUsersTable", _)] [])
                  (OrderServiceStack.Props.mk _) H eq_refl)).
Qed.

Lemma asDirect_taken (scope : App) (id : string) (s : Stack)
    (props : ConfigBasedOrderServiceStack.Props.t) :
  child id scope = Some s →
  ConfigBasedOrderServiceStack_asDirect id props scope
  = Throw (DuplicateConstruct "App" id).
Proof.
  intros H. unfold ConfigBasedOrderServiceStack_asDirect.
  by rewrite (bind_Throw _ _ _ _ (Stack_new_taken _ _ _ H)).
Qed.

(** C5, as stated, fails: the configuration-based consuming unit is not the
    import by attributes followed by the steps of the direct-reference unit,
    since its function is told the table name under [USER_TABLE_NAME] and
    the direct-reference unit's under [USER_TABLE]. *)
Lemma config_consumer_differs_in_variable_name :
  ∃ scope id props,
    ConfigBasedOrderServiceStack.new id props scope
    ≠ ConfigBasedOrderServiceStack_asDirect id props scope
    ∧ envAt id "USER_TABLE" (ConfigBasedOrderServiceStack.new id props scope)
      = None
    ∧ envAt id "USER_TABLE"
        (ConfigBasedOrderServiceStack_asDirect id props scope)
      = Some (Literal "Users").
Proof.
  exists App_new, "ConfigBasedOrderService",
    (ConfigBasedOrderServiceStack.Props.mk "Users").
  assert (H1 : envAt "ConfigBasedOrderService" "USER_TABLE"
                 (ConfigBasedOrderServiceStack.new "ConfigBasedOrderService"
                    (ConfigBasedOrderServiceStack.Props.mk "Users") App_new)
               = None) by (vm_compute; reflexivity).
  assert (H2 : envAt "ConfigBasedOrderService" "USER_TABLE"
                 (ConfigBasedOrderServiceStack_asDirect "ConfigBasedOrderService"
                    (ConfigBasedOrderServiceStack.Props.mk "Users") App_new)
               = Some (Literal "Users")) by (vm_compute; reflexivity).
  split; [| by split].
  intros Heq. rewrite Heq in H1. rewrite H1 in H2. discriminate.
Qed.

(** C5, amended: for every table name (and every scope and id), the
    configuration-based consuming unit does what the import by attributes
    followed by the steps of the direct-reference unit on the re-resolved
    handle does, up to the name of the environment variable: the same
    constructs under the same ids, one function with the same entry, the
    same environment values and the same read grant, or the same error. *)
Theorem config_consumer_as_direct (scope : App) (id : string)
    (props : ConfigBasedOrderServiceStack.Props.t) :
  outcomeOutline (ConfigBasedOrderServiceStack.new id props scope)
  = outcomeOutline (ConfigBasedOrderServiceStack_asDirect id props scope).
Proof.
  destruct (child id scope) as [s|] eqn:H.
  - by rewrite (config_consumer_new_taken _ _ _ _ H), (asDirect_taken _ _ _ _ H).
  - rewrite (config_consumer_new_fresh _ _ _ H), (asDirect_fresh _ _ _ H).
    unfold outcomeOutline, appOutline. rewrite !fmap_app. simpl.
    unfold stackOutline. simpl. by rewrite !map_to_list_singleton.
Qed.

(** ** The platform's rule *)

(** An accepted deployment removes no export that is still imported. *)
Lemma deployStack_accepted (sid : string) (t : Template) (d d' : Deployed) :
  deployStack sid t d = inr d' →
  d' = upsert sid t d
  ∧ ∀ r, r ∈ removedExports sid t d → importers d sid r = [].
Proof.
  unfold deployStack. destruct (blocked sid t d) as [|[r c] l] eqn:Hb; [| done].
  intros [= <-]. split; [done |]. intros r Hr.
  destruct (importers d sid r) as [|c l] eqn:Hi; [done |].
  assert (Hin : (r, c) ∈ blocked sid t d).
  { unfold blocked. apply list_elem_of_bind. exists r. split; [| done].
    rewrite Hi. left. }
  rewrite Hb in Hin. by apply not_elem_of_nil in Hin.
Qed.


(** * Further properties of the stacks *)

(** ** Lookups in a grown scope *)

Lemma child_app_other {A} (id k : string) (a : A) (l : list (string * A)) :
  k ≠ id → child id (l ++ [(k, a)]) = child id l.
Proof.
  intros Hne. induction l as [|[k' b] l IH]; simpl.
  - by rewrite decide_False.
  - by destruct (decide (k' = id)).
Qed.

Lemma child_app_found {A} (id : string) (a : A) (l l' : list (string * A)) :
  child id l = Some a → child id (l ++ l') = Some a.
Proof.
  induction l as [|[k b] l IH]; simpl; [done |].
  destruct (decide (k = id)); [done | exact IH].
Qed.

Lemma producer_new_taken (scope : App) (id : string) (s : Stack) :
  child id scope = Some s →
  UserServiceStack.new id scope = Throw (DuplicateConstruct "App" id).
Proof.
  intros H. unfold UserServiceStack.new.
  by rewrite (bind_Throw _ _ _ _ (Stack_new_taken _ _ _ H)).
Qed.

Lemma config_producer_new_taken (scope : App) (id : string) (s : Stack)
    (props : ConfigBasedUserServiceStack.Props.t) :
  child id scope = Some s →
  ConfigBasedUserServiceStack.new id props scope
  = Throw (DuplicateConstruct "App" id).
Proof.
  intros H. unfold ConfigBasedUserServiceStack.new.
  by rewrite (bind_Throw _ _ _ _ (Stack_new_taken _ _ _ H)).
Qed.

Lemma direct_consumer_new_taken (scope : App) (id : string) (s : Stack)
    (props : OrderServiceStack.Props.t) :
  child id scope = Some s →
  OrderServiceStack.new id props scope = Throw (DuplicateConstruct "App" id).
Proof.
  intros H. unfold OrderServiceStack.new.
  by rewrite (bind_Throw _ _ _ _ (Stack_new_taken _ _ _ H)).
Qed.

(** ** The two producing units compared *)

(** X1: given the name ["Users"], the configuration-based producing unit
    does exactly what the direct-reference producing unit does, in every
    scope and under every id: the same app results, the same handle is
    exposed, and on a taken id the same error is thrown. *)
Theorem producers_agree_on_Users (scope : App) (id : string) :
  match UserServiceStack.new id scope,
        ConfigBasedUserServiceStack.new id
          (ConfigBasedUserServiceStack.Props.mk "Users") scope with
  | Ok (i1, app1), Ok (i2, app2) =>
      app1 = app2
      ∧ UserServiceStack.node i1 = ConfigBasedUserServiceStack.node i2
      ∧ UserServiceStack.usersTable i1 = ConfigBasedUserServiceStack.usersTable i2
      ∧ publicTables i1 = publicTables i2
  | Throw e1, Throw e2 => e1 = e2
  | _, _ => False
  end.
Proof.
  destruct (child id scope) as [s|] eqn:H.
  - by rewrite (producer_new_taken _ _ _ H), (config_producer_new_taken _ _ _ _ H).
  - by rewrite (producer_new_fresh _ _ H), (config_producer_new_fresh _ _ _ H).
Qed.

(** ** The id check of the constructors *)

(** X2: on input the framework accepts (a well-formed id, and a non-empty
    name for the table to re-resolve), each of the four stack constructors
    succeeds exactly when its id is not yet taken in the scope; on a taken
    id it throws the duplicate-id error for that id, whatever its props,
    before defining anything. *)
Theorem constructors_succeed_iff_id_free (scope : App) (id : string)
    (pprops : ConfigBasedUserServiceStack.Props.t)
    (dprops : OrderServiceStack.Props.t)
    (cprops : ConfigBasedOrderServiceStack.Props.t) :
  validStackId id = true →
  ConfigBasedOrderServiceStack.Props.usersTableName cprops ≠ "" →
  (child id scope = None
   ∧ (∃ r, UserServiceStack.new id scope = Ok r)
   ∧ (∃ r, ConfigBasedUserServiceStack.new id pprops scope = Ok r)
   ∧ (∃ r, OrderServiceStack.new id dprops scope = Ok r)
   ∧ (∃ r, ConfigBasedOrderServiceStack.new id cprops scope = Ok r))
  ∨ (is_Some (child id scope)
     ∧ UserServiceStack.new id scope = Throw (DuplicateConstruct "App" id)
     ∧ ConfigBasedUserServiceStack.new id pprops scope
       = Throw (DuplicateConstruct "App" id)
     ∧ OrderServiceStack.new id dprops scope
       = Throw (DuplicateConstruct "App" id)
     ∧ ConfigBasedOrderServiceStack.new id cprops scope
       = Throw (DuplicateConstruct "App" id)).
Proof.
  intros _ _. destruct (child id scope) as [s|] eqn:H.
  - right. split; [by eexists |].
    split; [exact (producer_new_taken _ _ _ H) |].
    split; [exact (config_producer_new_taken _ _ _ _ H) |].
    split; [exact (direct_consumer_new_taken _ _ _ _ H) |].
    exact (config_consumer_new_taken _ _ _ _ H).
  - left. split; [done |].
    split; [eexists; exact (producer_new_fresh _ _ H) |].
    split; [eexists; exact (config_producer_new_fresh _ _ _ H) |].
    split; [eexists; exact (direct_consumer_new_fresh _ _ _ H) |].
    eexists; exact (config_consumer_new_fresh _ _ _ H).
Qed.

(** An instance: an id that is taken. *)
Lemma constructors_succeed_iff_id_free_witness :
  (child "UserService" [("UserService", producerStack "Users")] = None
   ∧ (∃ r, UserServiceStack.new "UserService"
             [("UserService", producerStack "Users")] = Ok r)
   ∧ (∃ r, ConfigBasedUserServiceStack.new "UserService"
             (ConfigBasedUserServiceStack.Props.mk "Users")
             [("UserService", producerStack "Users")] = Ok r)
   ∧ (∃ r, OrderServiceStack.new "UserService"
             (OrderServiceStack.Props.mk
                (ITableV2.Created "UserService" "UsersTable"))
             [("UserService", producerStack "Users")] = Ok r)
   ∧ (∃ r, ConfigBasedOrderServiceStack.new "UserService"
             (ConfigBasedOrderServiceStack.Props.mk "Users")
             [("UserService", producerStack "Users")] = Ok r))
  ∨ (is_Some (child "UserService" [("UserService", producerStack "Users")])
     ∧ UserServiceStack.new "UserService"
         [("UserService", producerStack "Users")]
       = Throw (DuplicateConstruct "App" "UserService")
     ∧ ConfigBasedUserServiceStack.new "UserService"
         (ConfigBasedUserServiceStack.Props.mk "Users")
         [("UserService", producerStack "Users")]
       = Throw (DuplicateConstruct "App" "UserService")
     ∧ OrderServiceStack.new "UserService"
         (OrderServiceStack.Props.mk
            (ITableV2.Created "UserService" "UsersTable"))
         [("UserService", producerStack "Users")]
       = Throw (DuplicateConstruct "App" "UserService")
     ∧ ConfigBasedOrderServiceStack.new "UserService"
         (ConfigBasedOrderServiceStack.Props.mk "Users")
         [("UserService", producerStack "Users")]
       = Throw (DuplicateConstruct "App" "UserService")).
Proof.
  exact (constructors_succeed_iff_id_free
           [("UserService", producerStack "Users")] "UserService"
           (ConfigBasedUserServiceStack.Props.mk "Users")
           (OrderServiceStack.Props.mk
              (ITableV2.Created "UserService" "UsersTable"))
           (ConfigBasedOrderServiceStack.Props.mk "Users")
           eq_refl ltac:(discriminate)).
Defined.

(** ** Which units define tables *)

Lemma tableDefinitions_app (app app' : App) :
  tableDefinitions (app ++ app') = tableDefinitions app ++ tableDefinitions app'.
Proof. unfold tableDefinitions. apply bind_app. Qed.

(** X3: on input the framework accepts (a well-formed, free id, and a
    non-empty name for the table to re-resolve), a producing unit adds
    exactly one table definition to the app, the table [UsersTable] of its
    own stack with the given name and the string partition key [PK]; a
    consuming unit adds none, also the one that re-resolves a table. The
    definitions already in the app stay as they are. *)
Theorem only_producers_define_tables (scope : App) (id : string)
    (pprops : ConfigBasedUserServiceStack.Props.t)
    (dprops : OrderServiceStack.Props.t)
    (cprops : ConfigBasedOrderServiceStack.Props.t) :
  child id scope = None →
  validStackId id = true →
  ConfigBasedOrderServiceStack.Props.usersTableName cprops ≠ "" →
  (∃ inst scope',
      UserServiceStack.new id scope = Ok (inst, scope')
      ∧ tableDefinitions scope'
        = tableDefinitions scope
          ++ [(mkReference id "UsersTable",
               TablePropsV2.mk "Users" (Attribute.mk "PK" STRING))])
  ∧ (∃ inst scope',
      ConfigBasedUserServiceStack.new id pprops scope = Ok (inst, scope')
      ∧ tableDefinitions scope'
        = tableDefinitions scope
          ++ [(mkReference id "UsersTable",
               TablePropsV2.mk
                 (ConfigBasedUserServiceStack.Props.usersTableName pprops)
                 (Attribute.mk "PK" STRING))])
  ∧ (∃ inst scope',
      OrderServiceStack.new id dprops scope = Ok (inst, scope')
      ∧ tableDefinitions scope' = tableDefinitions scope)
  ∧ (∃ inst scope',
      ConfigBasedOrderServiceStack.new id cprops scope = Ok (inst, scope')
      ∧ tableDefinitions scope' = tableDefinitions scope).
Proof.
  intros H _ _.
  split; [eexists _, _; split; [exact (producer_new_fresh _ _ H) |];
          by rewrite tableDefinitions_app |].
  split; [eexists _, _; split; [exact (config_producer_new_fresh _ _ _ H) |];
          by rewrite tableDefinitions_app |].
  split; [eexists _, _; split; [exact (direct_consumer_new_fresh _ _ _ H) |];
          rewrite tableDefinitions_app; apply app_nil_r |].
  eexists _, _; split; [exact (config_consumer_new_fresh _ _ _ H) |].
  rewrite tableDefinitions_app. apply app_nil_r.
Qed.

(** An instance: a scope that already holds a producer. *)
Lemma only_producers_define_tables_witness :
  (∃ inst scope',
      UserServiceStack.new "Second" [("UserService", producerStack "Users")]
      = Ok (inst, scope')
      ∧ tableDefinitions scope'
        = tableDefinitions [("UserService", producerStack "Users")]
          ++ [(mkReference "Second" "UsersTable",
               TablePropsV2.mk "Users" (Attribute.mk "PK" STRING))])
  ∧ (∃ inst scope',
      ConfigBasedUserServiceStack.new "Second"
        (ConfigBasedUserServiceStack.Props.mk "Orders")
        [("UserService", producerStack "Users")]
      = Ok (inst, scope')
      ∧ tableDefinitions scope'
        = tableDefinitions [("UserService", producerStack "Users")]
          ++ [(mkReference "Second" "UsersTable",
               TablePropsV2.mk "Orders" (Attribute.mk "PK" STRING))])
  ∧ (∃ inst scope',
      OrderServiceStack.new "Second"
        (OrderServiceStack.Props.mk (ITableV2.Created "UserService" "UsersTable"))
        [("UserService", producerStack "Users")]
      = Ok (inst, scope')
      ∧ tableDefinitions scope'
        = tableDefinitions [("UserService", producerStack "Users")])
  ∧ (∃ inst scope',
      ConfigBasedOrderServiceStack.new "Second"
        (ConfigBasedOrderServiceStack.Props.mk "Users")
        [("UserService", producerStack "Users")]
      = Ok (inst, scope')
      ∧ tableDefinitions scope'
        = tableDefinitions [("UserService", producerStack "Users")]).
Proof.
  exact (only_producers_define_tables
           [("UserService", producerStack "Users")] "Second"
           (ConfigBasedUserServiceStack.Props.mk "Orders")
           (OrderServiceStack.Props.mk (ITableV2.Created "UserService" "UsersTable"))
           (ConfigBasedOrderServiceStack.Props.mk "Users")
           eq_refl eq_refl ltac:(discriminate)).
Defined.

(** ** What a handle brings into the stack that uses it *)

Lemma direct_consumer_references (table : ITableV2.t) :
  stackReferences (directConsumerStack table)
  = valueReferences (ITableV2.tableName table) ++ ITableV2.references table.
Proof.
  unfold stackReferences, directConsumerStack. simpl.
  rewrite map_to_list_singleton. simpl. by rewrite !app_nil_r.
Qed.

Lemma direct_consumer_imports (id : string) (table : ITableV2.t) :
  stackImports id (directConsumerStack table)
  = filter (λ r, refStack r ≠ id) (ITableV2.references table).
Proof.
  unfold stackImports. rewrite direct_consumer_references.
  destruct table as [s i | s i attrs]; simpl; [| done].
  destruct (decide (s = id)) as [-> | Hne].
  - by rewrite !filter_cons_False, filter_nil by (simpl; intros ?; done).
  - rewrite !filter_cons_True, filter_nil by done. cbn [remove_dups].
    destruct (decide_rel elem_of _ [_]) as [_ | Hn];
      [| exfalso; apply Hn; left].
    destruct (decide_rel elem_of _ []) as [Hin | _]; [| done].
    by apply elem_of_nil in Hin.
Qed.

(** X5: constructing the direct-reference consuming unit with the handle of
    a table of another stack leaves that stack's definition as it is, and yet
    changes that stack's artifact: in the resulting app the reference to the
    table is among its exports, and it is the one import of the consumer's
    artifact. This holds for every scope, every producing stack in it and
    every table id. *)
Theorem direct_consumer_couples_producer (scope : App) (id pid tid : string)
    (ps : Stack) :
  child id scope = None →
  child pid scope = Some ps →
  ∃ inst scope' cs,
    OrderServiceStack.new id
      (OrderServiceStack.Props.mk (ITableV2.Created pid tid)) scope
    = Ok (inst, scope')
    ∧ child pid scope' = Some ps
    ∧ child id scope' = Some cs
    ∧ imports (synthStack scope' id cs) = [mkReference pid tid]
    ∧ mkReference pid tid ∈ exports (synthStack scope' pid ps).
Proof.
  intros Hid Hpid.
  assert (Hne : pid ≠ id) by (intros ->; congruence).
  eexists _, _, _.
  split; [exact (direct_consumer_new_fresh _ _ _ Hid) |].
  split; [exact (child_app_found _ _ _ _ Hpid) |].
  split; [exact (child_app_new _ _ _ Hid) |].
  assert (Hi : stackImports id (directConsumerStack (ITableV2.Created pid tid))
               = [mkReference pid tid]).
  { rewrite direct_consumer_imports. simpl.
    by rewrite filter_cons_True, filter_nil by done. }
  split; [exact Hi |].
  simpl. unfold stackExports. rewrite elem_of_remove_dups, elem_of_app. left.
  apply list_elem_of_filter. split; [done |].
  apply list_elem_of_bind. eexists (id, _). split.
  - simpl. rewrite Hi. left.
  - rewrite elem_of_app. right. left.
Qed.

(** An instance: the direct-reference pair of the entry point. *)
Lemma direct_consumer_couples_producer_witness :
  ∃ inst scope' cs,
    OrderServiceStack.new "OrderService"
      (OrderServiceStack.Props.mk (ITableV2.Created "UserService" "UsersTable"))
      [("UserService", producerStack "Users")]
    = Ok (inst, scope')
    ∧ child "UserService" scope' = Some (producerStack "Users")
    ∧ child "OrderService" scope' = Some cs
    ∧ imports (synthStack scope' "OrderService" cs)
      = [mkReference "UserService" "UsersTable"]
    ∧ mkReference "UserService" "UsersTable"
      ∈ exports (synthStack scope' "UserService" (producerStack "Users")).
Proof.
  exact (direct_consumer_couples_producer
           [("UserService", producerStack "Users")]
           "OrderService" "UserService" "UsersTable" (producerStack "Users")
           eq_refl eq_refl).
Defined.

(** ** The name a consumer's function is told *)

(** X6: wired by handle, the name follows the definition. For every table
    name, constructing the configuration-based producing unit with that name
    and then the direct-reference consuming unit with the producer's public
    handle gives a function whose [USER_TABLE] variable resolves, on
    deployment, to that very name, and whose grant is on that handle. *)
Theorem direct_reference_follows_name (scope : App) (pid cid name : string) :
  child pid scope = None → child cid scope = None → pid ≠ cid →
  ∃ p scope1 c scope2 fprops,
    ConfigBasedUserServiceStack.new pid
      (ConfigBasedUserServiceStack.Props.mk name) scope
    = Ok (p, scope1)
    ∧ OrderServiceStack.new cid
        (OrderServiceStack.Props.mk (ConfigBasedUserServiceStack.usersTable p))
        scope1
      = Ok (c, scope2)
    ∧ functionOf scope2 cid "OrderFunction"
      = Some (fprops,
              [mkStatement ReadData (ConfigBasedUserServiceStack.usersTable p)])
    ∧ (resolve scope2 <$> NodejsFunctionProps.environment fprops)
      = {[ "USER_TABLE" := Some name ]}.
Proof.
  intros Hp Hc Hne.
  assert (Hc1 : child cid (scope ++ [(pid, producerStack name)]) = None)
    by (by rewrite child_app_other).
  eexists _, _, _, _, _.
  split; [exact (config_producer_new_fresh _ _ _ Hp) |].
  split; [exact (direct_consumer_new_fresh _ _ _ Hc1) |].
  split; [by rewrite (functionOf_last _ _ _ _ Hc1) |].
  simpl. rewrite map_fmap_singleton. simpl. unfold physicalName. simpl.
  by rewrite (child_app_found _ _ _ _ (child_app_new _ _ _ Hp)).
Qed.

(** An instance: a table named ["UsersBackup"]. *)
Lemma direct_reference_follows_name_witness :
  ∃ p scope1 c scope2 fprops,
    ConfigBasedUserServiceStack.new "UserService"
      (ConfigBasedUserServiceStack.Props.mk "UsersBackup") App_new
    = Ok (p, scope1)
    ∧ OrderServiceStack.new "OrderService"
        (OrderServiceStack.Props.mk (ConfigBasedUserServiceStack.usersTable p))
        scope1
      = Ok (c, scope2)
    ∧ functionOf scope2 "OrderService" "OrderFunction"
      = Some (fprops,
              [mkStatement ReadData (ConfigBasedUserServiceStack.usersTable p)])
    ∧ (resolve scope2 <$> NodejsFunctionProps.environment fprops)
      = {[ "USER_TABLE" := Some "UsersBackup" ]}.
Proof.
  exact (direct_reference_follows_name App_new "UserService" "OrderService"
           "UsersBackup" eq_refl eq_refl ltac:(discriminate)).
Defined.

(** X7: wired by name, the name is taken on trust. For every name the table
    is defined with and every non-empty name the consumer is given, equal or
    not, the configuration-based pair is constructed without error under
    well-formed, free ids; the consumer defines no table, and its function
    is told, and is granted read access to, the table of the name it was
    given, whatever table the producer defined. *)
Theorem config_consumer_trusts_name (scope : App)
    (pid cid defined given : string) :
  child pid scope = None → child cid scope = None → pid ≠ cid →
  validStackId pid = true → validStackId cid = true →
  given ≠ "" →
  ∃ p scope1 c scope2 fprops table,
    ConfigBasedUserServiceStack.new pid
      (ConfigBasedUserServiceStack.Props.mk defined) scope
    = Ok (p, scope1)
    ∧ ConfigBasedOrderServiceStack.new cid
        (ConfigBasedOrderServiceStack.Props.mk given) scope1
      = Ok (c, scope2)
    ∧ physicalName scope2 (mkReference pid "UsersTable") = Some defined
    ∧ tableDefinitions scope2 = tableDefinitions scope1
    ∧ functionOf scope2 cid "OrderFunction"
      = Some (fprops, [mkStatement ReadData table])
    ∧ ITableV2.tableName table = Literal given
    ∧ (resolve scope2 <$> NodejsFunctionProps.environment fprops)
      = {[ "USER_TABLE_NAME" := Some given ]}.
Proof.
  intros Hp Hc Hne _ _ _.
  assert (Hc1 : child cid (scope ++ [(pid, producerStack defined)]) = None)
    by (by rewrite child_app_other).
  eexists _, _, _, _, _, _.
  split; [exact (config_producer_new_fresh _ _ _ Hp) |].
  split; [exact (config_consumer_new_fresh _ _ _ Hc1) |].
  split.
  { unfold physicalName. simpl.
    by rewrite (child_app_found _ _ _ _ (child_app_new _ _ _ Hp)). }
  split; [rewrite (tableDefinitions_app (_ ++ _)); apply app_nil_r |].
  split; [by rewrite (functionOf_last _ _ _ _ Hc1) |].
  split; [reflexivity |].
  simpl. by rewrite map_fmap_singleton.
Qed.

(** An instance: the table is defined as ["UsersBackup"] while the consumer
    is still given ["Users"]. *)
Lemma config_consumer_trusts_name_witness :
  ∃ p scope1 c scope2 fprops table,
    ConfigBasedUserServiceStack.new "ConfigBasedUserService"
      (ConfigBasedUserServiceStack.Props.mk "UsersBackup") App_new
    = Ok (p, scope1)
    ∧ ConfigBasedOrderServiceStack.new "ConfigBasedOrderService"
        (ConfigBasedOrderServiceStack.Props.mk "Users") scope1
      = Ok (c, scope2)
    ∧ physicalName scope2 (mkReference "ConfigBasedUserService" "UsersTable")
      = Some "UsersBackup"
    ∧ tableDefinitions scope2 = tableDefinitions scope1
    ∧ functionOf scope2 "ConfigBasedOrderService" "OrderFunction"
      = Some (fprops, [mkStatement ReadData table])
    ∧ ITableV2.tableName table = Literal "Users"
    ∧ (resolve scope2 <$> NodejsFunctionProps.environment fprops)
      = {[ "USER_TABLE_NAME" := Some "Users" ]}.
Proof.
  exact (config_consumer_trusts_name App_new
           "ConfigBasedUserService" "ConfigBasedOrderService"
           "UsersBackup" "Users" eq_refl eq_refl ltac:(discriminate)
           eq_refl eq_refl ltac:(discriminate)).
Defined.

(** ** The phase 1 stacks of the narrative *)

Lemma phase1_consumer_fresh (scope : App) (id : string)
    (props : OrderServiceStack.Props.t) :
  child id scope = None →
  TwoPhase.OrderServiceStack_phase1 id props scope
  = Ok (OrderServiceStack.mk id,
        scope ++ [(id, mkStack
                         [("OrderFunction",
                           CNodejsFunction
                             (NodejsFunctionProps.mk handlerEntry ∅) [])]
                         [])]).
Proof.
  intros H. unfold TwoPhase.OrderServiceStack_phase1.
  rewrite (bind_Ok _ _ _ _ _ (Stack_new_fresh _ _ H)).
  by rewrite (bind_Ok _ _ _ _ _
               (NodejsFunction_new_last scope id "OrderFunction"
                  (mkStack [] []) _ H eq_refl)).
Qed.

(** X9: the phase 1 consuming stack does not use the handle it is given: for
    every two props it builds the same stack, one function [OrderFunction]
    with the same entry, an empty environment and an empty policy, which
    holds no reference and imports nothing in any app. *)
Theorem phase1_consumer_ignores_handle (scope : App) (id : string)
    (props props' : OrderServiceStack.Props.t) :
  child id scope = None →
  ∃ inst cs fprops,
    TwoPhase.OrderServiceStack_phase1 id props scope
    = Ok (inst, scope ++ [(id, cs)])
    ∧ TwoPhase.OrderServiceStack_phase1 id props' scope
      = Ok (inst, scope ++ [(id, cs)])
    ∧ functionOf (scope ++ [(id, cs)]) id "OrderFunction" = Some (fprops, [])
    ∧ NodejsFunctionProps.entry fprops = "./lib/lambdas/handler.ts"
    ∧ NodejsFunctionProps.environment fprops = ∅
    ∧ stackReferences cs = []
    ∧ ∀ app : App, imports (synthStack app id cs) = [].
Proof.
  intros H. eexists _, _, _.
  split; [exact (phase1_consumer_fresh _ _ props H) |].
  split; [exact (phase1_consumer_fresh _ _ props' H) |].
  split; [by rewrite (functionOf_last _ _ _ _ H) |].
  split; [reflexivity |]. split; [reflexivity |].
  assert (Hr : stackReferences
                 (mkStack [("OrderFunction",
                            CNodejsFunction
                              (NodejsFunctionProps.mk handlerEntry ∅) [])] [])
               = []).
  { unfold stackReferences. simpl. by rewrite map_to_list_empty. }
  split; [exact Hr |].
  intros app. simpl. by apply stackImports_no_references.
Qed.

(** An instance: the handle of the producer's table against a re-resolved
    one. *)
Lemma phase1_consumer_ignores_handle_witness :
  ∃ inst cs fprops,
    TwoPhase.OrderServiceStack_phase1 "OrderService"
      (OrderServiceStack.Props.mk (ITableV2.Created "UserService" "UsersTable"))
      App_new
    = Ok (inst, App_new ++ [("OrderService", cs)])
    ∧ TwoPhase.OrderServiceStack_phase1 "OrderService"
        (OrderServiceStack.Props.mk (importedHandle "OrderService" "Users"))
        App_new
      = Ok (inst, App_new ++ [("OrderService", cs)])
    ∧ functionOf (App_new ++ [("OrderService", cs)])
        "OrderService" "OrderFunction"
      = Some (fprops, [])
    ∧ NodejsFunctionProps.entry fprops = "./lib/lambdas/handler.ts"
    ∧ NodejsFunctionProps.environment fprops = ∅
    ∧ stackReferences cs = []
    ∧ ∀ app : App, imports (synthStack app "OrderService" cs) = [].
Proof.
  exact (phase1_consumer_ignores_handle App_new "OrderService"
           (OrderServiceStack.Props.mk (ITableV2.Created "UserService" "UsersTable"))
           (OrderServiceStack.Props.mk (importedHandle "OrderService" "Users"))
           eq_refl).
Defined.

(** ** The platform's rule in general *)

Lemma blocked_nil (sid : string) (t : Template) (d : Deployed) :
  (∀ r, r ∈ removedExports sid t d → importers d sid r = []) →
  blocked sid t d = [].
Proof.
  intros H. destruct (blocked sid t d) as [|x l] eqn:Hb; [done |].
  assert (Hin : x ∈ blocked sid t d) by (rewrite Hb; left).
  unfold blocked in Hin. apply list_elem_of_bind in Hin as (r & Hx & Hr).
  rewrite (H r Hr) in Hx. by apply elem_of_nil in Hx.
Qed.

Lemma deployStack_keeps_exports (sid : string) (t : Template) (d : Deployed) :
  (∀ r, r ∈ default [] (exports <$> child sid d) → r ∈ exports t) →
  deployStack sid t d = inr (upsert sid t d).
Proof.
  intros H. unfold deployStack. rewrite blocked_nil; [done |].
  intros r Hr. unfold removedExports in Hr.
  apply list_elem_of_filter in Hr as [Hn Hl]. destruct Hn. by apply H.
Qed.




(** ** The two-phase migration of the narrative *)



(** ** Decoupling on the platform *)

Lemma consumerDecoupled_eq : TwoPhase.consumerDecoupled = mkTemplate [] [].
Proof. vm_compute. reflexivity. Qed.

Lemma producerDecoupled_eq : TwoPhase.producerDecoupled = mkTemplate [] [].
Proof. vm_compute. reflexivity. Qed.

Lemma importers_pair (e : list Reference) (tc : Template) (r : Reference) :
  importers [(TwoPhase.producer, mkTemplate [] e); (TwoPhase.consumer, tc)]
    TwoPhase.producer r
  = if decide (r ∈ imports tc) then [TwoPhase.consumer] else [].
Proof.
  unfold importers, Deployed.
  rewrite filter_cons_False by (simpl; intros [Hne _]; by apply Hne).
  destruct (decide (r ∈ imports tc)) as [Hin | Hnin].
  - rewrite filter_cons_True by (simpl; split; [discriminate | done]).
    by rewrite filter_nil.
  - rewrite filter_cons_False by (simpl; intros [_ ?]; done).
    by rewrite filter_nil.
Qed.

(** The states the attempts lead to from a coupled pair: the producer
    exports what it last declared, and the consumer either still imports,
    all of it exported, or has dropped its imports. *)
Lemma reachable_shape (e i : list Reference) (d : Deployed) :
  (∀ r, r ∈ i → r ∈ e) →
  TwoPhase.reachable (TwoPhase.coupled e i) d →
  ∃ e' tc,
    d = [(TwoPhase.producer, mkTemplate [] e'); (TwoPhase.consumer, tc)]
    ∧ ((tc = mkTemplate i [] ∧ ∀ r, r ∈ i → r ∈ e') ∨ tc = mkTemplate [] []).
Proof.
  intros Hie Hreach. induction Hreach as [| d d' sid t _ IH Hatt Hdep].
  - exists e, (mkTemplate i []). split; [done |]. by left.
  - destruct IH as (e' & tc & -> & Htc).
    destruct (deployStack_accepted _ _ _ _ Hdep) as [-> Hfree].
    inversion Hatt as [e'' Heq | Heq]; subst sid t.
    + exists e'', tc. split; [reflexivity |].
      destruct Htc as [[-> Hin] | ->]; [left | by right].
      split; [done |]. intros r Hr.
      destruct (decide (r ∈ e'')) as [|Hdrop]; [done |]. exfalso.
      assert (Hrem : r ∈ removedExports TwoPhase.producer (mkTemplate [] e'')
                         [(TwoPhase.producer, mkTemplate [] e');
                          (TwoPhase.consumer, mkTemplate i [])]).
      { unfold removedExports. apply list_elem_of_filter. split; [done |].
        simpl. by apply Hin. }
      specialize (Hfree r Hrem). rewrite importers_pair in Hfree.
      simpl in Hfree. rewrite decide_True in Hfree by done. discriminate.
    + exists e', (mkTemplate [] []). split; [| by right].
      by rewrite consumerDecoupled_eq.
Qed.

(** X14: decoupling never strands an import. From every coupled pair on the
    platform (the consumer imports references of the producer, all of them
    exported), whatever the producer redeploys (a dummy export kept or not)
    and in whatever order the redeployments are attempted, in every state
    that is reached each import still has its export; redeploying the
    consumer without its imports is accepted in each of these states; and
    once the consumer has no import left, the producer without any export is
    accepted and leaves no export. *)
Theorem decoupling_never_strands_an_import (e i : list Reference)
    (d : Deployed) :
  (∀ r, r ∈ i → refStack r = TwoPhase.producer ∧ r ∈ e) →
  TwoPhase.reachable (TwoPhase.coupled e i) d →
  noDanglingImport d = true
  ∧ (∃ d',
      deployStack TwoPhase.consumer TwoPhase.consumerDecoupled d = inr d'
      ∧ TwoPhase.reachable (TwoPhase.coupled e i) d'
      ∧ child TwoPhase.consumer d' = Some (mkTemplate [] []))
  ∧ (child TwoPhase.consumer d = Some (mkTemplate [] []) →
     ∃ d',
       deployStack TwoPhase.producer TwoPhase.producerDecoupled d = inr d'
       ∧ TwoPhase.reachable (TwoPhase.coupled e i) d'
       ∧ child TwoPhase.producer d' = Some (mkTemplate [] [])).
Proof.
  intros Hi Hreach.
  destruct (reachable_shape e i d (λ r Hr, proj2 (Hi r Hr)) Hreach)
    as (e' & tc & -> & Htc).
  split; [| split].
  - unfold noDanglingImport. simpl. rewrite andb_true_r.
    apply forallb_forall. intros r Hr. apply list_elem_of_In in Hr.
    apply bool_decide_eq_true.
    destruct Htc as [[-> Hin] | ->]; [| by apply elem_of_nil in Hr].
    simpl in Hr. rewrite (proj1 (Hi r Hr)). simpl. by apply Hin.
  - assert (Hd : deployStack TwoPhase.consumer TwoPhase.consumerDecoupled
                   [(TwoPhase.producer, mkTemplate [] e');
                    (TwoPhase.consumer, tc)]
                 = inr [(TwoPhase.producer, mkTemplate [] e');
                        (TwoPhase.consumer, mkTemplate [] [])]).
    { rewrite deployStack_keeps_exports; [by rewrite consumerDecoupled_eq |].
      intros r Hr. simpl in Hr.
      destruct Htc as [[-> _] | ->]; by apply elem_of_nil in Hr. }
    eexists. split; [exact Hd |]. split; [| reflexivity].
    eapply TwoPhase.reachable_deploy; [exact Hreach | | exact Hd].
    apply TwoPhase.attempt_consumer.
  - intros Hc. simpl in Hc. injection Hc as ->.
    assert (Hd : deployStack TwoPhase.producer TwoPhase.producerDecoupled
                   [(TwoPhase.producer, mkTemplate [] e');
                    (TwoPhase.consumer, mkTemplate [] [])]
                 = inr [(TwoPhase.producer, mkTemplate [] []);
                        (TwoPhase.consumer, mkTemplate [] [])]).
    { unfold deployStack. rewrite blocked_nil; [by rewrite producerDecoupled_eq |].
      intros r _. rewrite importers_pair.
      destruct (decide _) as [Hin |]; [| done].
      by apply elem_of_nil in Hin. }
    eexists. split; [exact Hd |]. split; [| reflexivity].
    eapply TwoPhase.reachable_deploy; [exact Hreach | | exact Hd].
    rewrite producerDecoupled_eq. apply TwoPhase.attempt_producer.
Qed.

(** An instance: state A, the coupled pair of the entry point as first
    deployed. *)
Lemma decoupling_never_strands_an_import_witness :
  TwoPhase.deployedA = inr (TwoPhase.coupled [TwoPhase.tableRef] [TwoPhase.tableRef])
  ∧ noDanglingImport (TwoPhase.coupled [TwoPhase.tableRef] [TwoPhase.tableRef])
    = true
  ∧ (∃ d',
      deployStack TwoPhase.consumer TwoPhase.consumerDecoupled
        (TwoPhase.coupled [TwoPhase.tableRef] [TwoPhase.tableRef])
      = inr d'
      ∧ TwoPhase.reachable
          (TwoPhase.coupled [TwoPhase.tableRef] [TwoPhase.tableRef]) d'
      ∧ child TwoPhase.consumer d' = Some (mkTemplate [] []))
  ∧ (child TwoPhase.consumer
       (TwoPhase.coupled [TwoPhase.tableRef] [TwoPhase.tableRef])
     = Some (mkTemplate [] []) →
     ∃ d',
       deployStack TwoPhase.producer TwoPhase.producerDecoupled
         (TwoPhase.coupled [TwoPhase.tableRef] [TwoPhase.tableRef])
       = inr d'
       ∧ TwoPhase.reachable
           (TwoPhase.coupled [TwoPhase.tableRef] [TwoPhase.tableRef]) d'
       ∧ child TwoPhase.producer d' = Some (mkTemplate [] [])).
Proof.
  split; [vm_compute; reflexivity |].
  apply (decoupling_never_strands_an_import
           [TwoPhase.tableRef] [TwoPhase.tableRef]
           (TwoPhase.coupled [TwoPhase.tableRef] [TwoPhase.tableRef])).
  - intros r Hr. apply list_elem_of_singleton in Hr as ->.
    split; [reflexivity | left].
  - apply TwoPhase.reachable_start.
Defined.
